(** * Medical Q&A response evaluator: a shallow embedding of
      [src/medical_evaluator.py] and the properties of its scoring engine.

    Conventions of the embedding.
    - A Python [str] is a [string] whose characters are the code points below
      256 (ASCII and Latin-1).  On these, [str.lower] and [re.IGNORECASE] act
      one character at a time, as [lower_char] does.
    - A Python [float] score is the rational number it denotes ([Q], compared
      with [==]).  Every value an assessor produces is obtained from small
      integers and [100 / 4], which binary64 represents without rounding; the
      weighted sum of the aggregator is taken over the rationals, and
      [Binary64] runs the same sum in binary64 arithmetic to compare.
      The completeness loop adds the share [100 / len] over the rationals
      as well; on the constructed tables the share is 25 and [Binary64] runs
      the loop in binary64 arithmetic with the same values.  On a table whose
      share is not a binary64 number the float sum can differ in the last
      place, so what is stated about completeness values is stated for the
      constructed evaluator.
    - An exception is a value [Raise e] of the result type [res]; a method
      that can run into a [KeyError], a [ZeroDivisionError] or an [re.error]
      is written in that monad. *)

From Stdlib Require Import Bool List String Ascii NArith ZArith QArith Qminmax Lia Lqa.
From Stdlib Require Import Uint63 PrimFloat SpecFloat FloatOps.
Import ListNotations.
Local Open Scope string_scope.

(* ===================================================================== *)
(** ** Exceptions *)
(* ===================================================================== *)

Inductive exn : Type :=
| KeyError (key : string)
| ZeroDivisionError
| ReError (pattern : string).

Inductive res (A : Type) : Type :=
| Ok (a : A)
| Raise (e : exn).

Arguments Ok {A} a.
Arguments Raise {A} e.

Definition bind {A B : Type} (m : res A) (k : A -> res B) : res B :=
  match m with
  | Ok a => k a
  | Raise e => Raise e
  end.

Notation "x <- m ;; k" := (bind m (fun x => k))
  (at level 61, m at next level, right associativity).

(** [any(f(x) for x in l)]: the generator is consumed lazily, so the first
    truthy element ends the scan, and an exception raised by [f] ends it too. *)
Fixpoint anyM {A : Type} (f : A -> res bool) (l : list A) : res bool :=
  match l with
  | [] => Ok false
  | x :: t => b <- f x ;; if b then Ok true else anyM f t
  end.

(* ===================================================================== *)
(** ** Text: [str.lower] and the [in] operator *)
(* ===================================================================== *)

Module Str.

(** Upper-case letters below code point 256: A-Z, and the Latin-1 capitals
    U+00C0..U+00DE without the multiplication sign U+00D7. *)
Definition is_upper (c : ascii) : bool :=
  let n := N_of_ascii c in
  ((65 <=? n) && (n <=? 90)
   || (192 <=? n) && (n <=? 222) && negb (n =? 215))%N.

Definition lower_char (c : ascii) : ascii :=
  if is_upper c then ascii_of_N (N_of_ascii c + 32) else c.

(** [s.lower()] *)
Fixpoint lower (s : string) : string :=
  match s with
  | EmptyString => EmptyString
  | String c t => String (lower_char c) (lower t)
  end.

(** [needle in hay] on strings: [needle] occurs as a contiguous run. *)
Fixpoint isin (needle hay : string) : bool :=
  prefix needle hay
  || match hay with
     | EmptyString => false
     | String _ t => isin needle t
     end.

(** [needle] occurs in [hay] in some letter case. *)
Definition occurs (needle hay : string) : Prop :=
  exists a x b, hay = a ++ x ++ b /\ lower x = needle.

(** No line feed in [s] (what [.] refuses to match). *)
Fixpoint one_line (s : string) : bool :=
  match s with
  | EmptyString => true
  | String c t => negb (Ascii.eqb c "010") && one_line t
  end.

End Str.

(* ===================================================================== *)
(** ** Regular expressions: the fragment of [re] the evaluator uses *)
(* ===================================================================== *)

Module Re.

Inductive atom : Type :=
| Lit (c : ascii)      (* an ordinary character *)
| Dot                  (* [.]  : anything but a line feed *)
| Digit                (* [\d] *)
| Space.               (* [\s] *)

Inductive regex : Type :=
| Empty
| Eps
| Sym (a : atom)
| Cat (r1 r2 : regex)
| Alt (r1 r2 : regex)
| Star (r : regex).

(** Flags of [re.search]: [0] or [re.IGNORECASE]. *)
Inductive flags : Type := NOFLAG | IGNORECASE.

Definition is_digit (c : ascii) : bool :=
  let n := N_of_ascii c in ((48 <=? n) && (n <=? 57))%N.

(** Unicode white space below code point 256. *)
Definition is_space (c : ascii) : bool :=
  let n := N_of_ascii c in
  ((9 <=? n) && (n <=? 13) || (28 <=? n) && (n <=? 32)
   || (n =? 133) || (n =? 160))%N.

Definition atom_ok (fl : flags) (a : atom) (c : ascii) : bool :=
  match a with
  | Lit p =>
      match fl with
      | IGNORECASE => Ascii.eqb (Str.lower_char c) (Str.lower_char p)
      | NOFLAG => Ascii.eqb c p
      end
  | Dot => negb (Ascii.eqb c "010")
  | Digit => is_digit c
  | Space => is_space c
  end.

(** *** Reading a pattern *)

Inductive token : Type :=
| TSym (a : atom)
| TStar
| TPlus
| TBar.

(** Characters with a meaning this fragment does not cover. *)
Definition unsupported (c : ascii) : bool :=
  existsb (Ascii.eqb c)
    ["("; ")"; "["; "]"; "{"; "}"; "?"; "^"; "$"; "\"]%char.

Fixpoint tokenize (p : string) : option (list token) :=
  match p with
  | EmptyString => Some []
  | String "\" (String "d" t) => option_map (cons (TSym Digit)) (tokenize t)
  | String "\" (String "s" t) => option_map (cons (TSym Space)) (tokenize t)
  | String "." t => option_map (cons (TSym Dot)) (tokenize t)
  | String "*" t => option_map (cons TStar) (tokenize t)
  | String "+" t => option_map (cons TPlus) (tokenize t)
  | String "|" t => option_map (cons TBar) (tokenize t)
  | String c t =>
      if unsupported c then None
      else option_map (cons (TSym (Lit c))) (tokenize t)
  end.

(** A branch is the concatenation of its items. *)
Fixpoint seq (items : list regex) : regex :=
  match items with
  | [] => Eps
  | r :: t => Cat r (seq t)
  end.

(** [cur] holds the items of the branch being read, last one first.  A
    repetition applies to the item before it; [|] closes the branch. *)
Fixpoint parse (ts : list token) (cur : list regex) : option regex :=
  match ts with
  | [] => Some (seq (rev cur))
  | TSym a :: ts' => parse ts' (Sym a :: cur)
  | TStar :: ts' =>
      match cur with
      | [] => None
      | h :: c => parse ts' (Star h :: c)
      end
  | TPlus :: ts' =>
      match cur with
      | [] => None
      | h :: c => parse ts' (Cat h (Star h) :: c)
      end
  | TBar :: ts' => option_map (Alt (seq (rev cur))) (parse ts' [])
  end.

(** [re.compile(pattern)]; a pattern that cannot be read raises. *)
Definition compile (pattern : string) : res regex :=
  match tokenize pattern with
  | Some ts =>
      match parse ts [] with
      | Some r => Ok r
      | None => Raise (ReError pattern)
      end
  | None => Raise (ReError pattern)
  end.

(** *** Matching, by derivatives *)

Fixpoint nullable (r : regex) : bool :=
  match r with
  | Empty => false
  | Eps => true
  | Sym _ => false
  | Cat r1 r2 => nullable r1 && nullable r2
  | Alt r1 r2 => nullable r1 || nullable r2
  | Star _ => true
  end.

Definition mkCat (r1 r2 : regex) : regex :=
  match r1, r2 with
  | Empty, _ => Empty
  | _, Empty => Empty
  | Eps, _ => r2
  | _, _ => Cat r1 r2
  end.

Definition mkAlt (r1 r2 : regex) : regex :=
  match r1, r2 with
  | Empty, _ => r2
  | _, Empty => r1
  | _, _ => Alt r1 r2
  end.

Fixpoint deriv (fl : flags) (c : ascii) (r : regex) : regex :=
  match r with
  | Empty => Empty
  | Eps => Empty
  | Sym a => if atom_ok fl a c then Eps else Empty
  | Cat r1 r2 =>
      if nullable r1
      then mkAlt (mkCat (deriv fl c r1) r2) (deriv fl c r2)
      else mkCat (deriv fl c r1) r2
  | Alt r1 r2 => mkAlt (deriv fl c r1) (deriv fl c r2)
  | Star r1 => mkCat (deriv fl c r1) (Star r1)
  end.

(** Some prefix of [s] matches [r] (a match anchored at the start). *)
Fixpoint match_here (fl : flags) (r : regex) (s : string) : bool :=
  nullable r
  || match s with
     | EmptyString => false
     | String c t => match_here fl (deriv fl c r) t
     end.

(** Some substring of [s] matches [r]: the truth value of a search. *)
Fixpoint find (fl : flags) (r : regex) (s : string) : bool :=
  match_here fl r s
  || match s with
     | EmptyString => false
     | String _ t => find fl r t
     end.

(** [re.search(pattern, text, flags)], read as a truth value. *)
Definition search (pattern text : string) (fl : flags) : res bool :=
  r <- compile pattern ;; Ok (find fl r text).

(** *** The language of a regular expression *)

Inductive Matches (fl : flags) : regex -> string -> Prop :=
| MEps : Matches fl Eps ""
| MSym a c : atom_ok fl a c = true -> Matches fl (Sym a) (String c "")
| MCat r1 r2 w1 w2 :
    Matches fl r1 w1 -> Matches fl r2 w2 -> Matches fl (Cat r1 r2) (w1 ++ w2)
| MAltL r1 r2 w : Matches fl r1 w -> Matches fl (Alt r1 r2) w
| MAltR r1 r2 w : Matches fl r2 w -> Matches fl (Alt r1 r2) w
| MStar0 r : Matches fl (Star r) ""
| MStarS r w1 w2 :
    Matches fl r w1 -> Matches fl (Star r) w2 -> Matches fl (Star r) (w1 ++ w2).

End Re.

(* ===================================================================== *)
(** ** Numbers and containers of the host language *)
(* ===================================================================== *)

Definition Qltb (x y : Q) : bool :=
  match (x ?= y)%Q with
  | Lt => true
  | _ => false
  end.

(** [max(a, b)] and [min(a, b)]: the first argument unless the second is
    strictly larger (smaller). *)
Definition py_max (a b : Q) : Q := if Qltb a b then b else a.
Definition py_min (a b : Q) : Q := if Qltb b a then b else a.

(** [a / b] on integers: true division. *)
Definition py_div (a b : Z) : res Q :=
  if (b =? 0)%Z then Raise ZeroDivisionError
  else Ok (inject_Z a / inject_Z b)%Q.

(** [sum(1 for x in l if p(x))] *)
Definition count_if {A : Type} (p : A -> bool) (l : list A) : Z :=
  Z.of_nat (List.length (filter p l)).

(** A [dict] with string keys, in insertion order. *)
Definition dict (V : Type) : Type := list (string * V).

(** [d[key]] *)
Fixpoint getitem {V : Type} (d : dict V) (key : string) : res V :=
  match d with
  | [] => Raise (KeyError key)
  | (k, v) :: t => if String.eqb k key then Ok v else getitem t key
  end.

(** [len(d)] *)
Definition len {V : Type} (d : dict V) : Z := Z.of_nat (List.length d).

(** The body of a [for] loop that updates one variable and may raise. *)
Fixpoint for_each {A S : Type} (body : S -> A -> res S) (l : list A) (s : S)
  : res S :=
  match l with
  | [] => Ok s
  | x :: t => s' <- body s x ;; for_each body t s'
  end.

(* ===================================================================== *)
(** ** The evaluator *)
(* ===================================================================== *)

Inductive RiskLevel : Type := LOW | MODERATE | HIGH | CRITICAL.

Record EvaluationResult : Type := {
  clinical_accuracy : Q;
  safety_score : Q;
  completeness_score : Q;
  evidence_quality : Q;
  overall_score : Q;
  risk_level : RiskLevel;
  identified_errors : list string;
  missing_elements : list string;
  safety_concerns : list string;
  recommendations : list string
}.

Record MedicalEvaluator : Type := {
  critical_keywords : dict (list string);
  required_elements : dict (list string)
}.

Definition __init__ : MedicalEvaluator := {|
  critical_keywords :=
    [ ("emergency",
       ["chest pain"; "shortness of breath"; "severe headache";
        "loss of consciousness"; "severe bleeding"; "stroke symptoms"]);
      ("contraindications",
       ["pregnancy"; "allergy"; "kidney disease"; "liver disease"]);
      ("red_flags",
       ["sudden onset"; "severe"; "worsening"; "progressive"; "acute"]) ];
  required_elements :=
    [ ("differential_diagnosis",
       ["differential"; "consider"; "rule out"; "possible causes"]);
      ("examination", ["physical exam"; "examination"; "assess"; "evaluate"]);
      ("investigations", ["test"; "lab"; "imaging"; "x-ray"; "blood work"]);
      ("management", ["treatment"; "management"; "therapy"; "medication"]) ]
|}.

Import Str.

(** *** Helper methods for specific checks *)

Definition _contains_contraindicated_advice
  (self : MedicalEvaluator) (response : string) : res bool :=
  let dangerous_combinations :=
    ["aspirin.*pregnancy"; "ace inhibitor.*pregnancy"] in
  anyM (fun combo => Re.search combo response Re.IGNORECASE)
       dangerous_combinations.

Definition _contains_outdated_information
  (self : MedicalEvaluator) (response : string) : bool :=
  false.

Definition _contains_dosage_errors
  (self : MedicalEvaluator) (response : string) : res bool :=
  Re.search "\d+\s*g.*aspirin" response Re.IGNORECASE.

Definition _contains_evidence_references
  (self : MedicalEvaluator) (response : string) : bool :=
  let evidence_terms := ["study"; "research"; "guidelines"; "clinical trial"] in
  existsb (fun term => isin term (lower response)) evidence_terms.

Definition _contains_dangerous_advice
  (self : MedicalEvaluator) (response : string) : bool :=
  let dangerous_phrases :=
    ["ignore symptoms"; "skip medication"; "stop treatment"] in
  existsb (fun phrase => isin phrase (lower response)) dangerous_phrases.

Definition _missing_emergency_warnings
  (self : MedicalEvaluator) (question response : string) : res bool :=
  emergency_symptoms <- getitem (critical_keywords self) "emergency" ;;
  let has_emergency_symptom :=
    existsb (fun symptom => isin symptom (lower question)) emergency_symptoms in
  let has_emergency_advice :=
    existsb (fun term => isin term (lower response))
            ["emergency"; "urgent"; "immediately"] in
  Ok (has_emergency_symptom && negb has_emergency_advice).

Definition _inappropriate_self_treatment
  (self : MedicalEvaluator) (response : string) : bool :=
  isin "self-treat" (lower response) || isin "treat at home" (lower response).

Definition _missing_contraindication_warnings
  (self : MedicalEvaluator) (response : string) : bool :=
  isin "medication" (lower response)
  && negb (isin "contraindication" (lower response)).

Definition _has_comprehensive_differential
  (self : MedicalEvaluator) (response : string) : bool :=
  let diff_indicators :=
    ["differential"; "consider"; "rule out"; "possible causes"] in
  (2 <=? count_if (fun indicator => isin indicator (lower response))
                  diff_indicators)%Z.

(** *** The four dimension assessors *)

Definition _assess_clinical_accuracy
  (self : MedicalEvaluator) (question response : string) : res Q :=
  let score := 85.0%Q in
  contraindicated <- _contains_contraindicated_advice self response ;;
  let score := if contraindicated then (score - 20)%Q else score in
  let score :=
    if _contains_outdated_information self response
    then (score - 15)%Q else score in
  dosage <- _contains_dosage_errors self response ;;
  let score := if dosage then (score - 25)%Q else score in
  let score :=
    if _contains_evidence_references self response
    then (score + 10)%Q else score in
  Ok (py_max 0 (py_min 100 score)).

Definition _assess_safety
  (self : MedicalEvaluator) (question response : string) : res Q :=
  let score := 90.0%Q in
  let score :=
    if _contains_dangerous_advice self response
    then (score - 40)%Q else score in
  missing <- _missing_emergency_warnings self question response ;;
  let score := if missing then (score - 25)%Q else score in
  let score :=
    if _inappropriate_self_treatment self response
    then (score - 20)%Q else score in
  let score :=
    if _missing_contraindication_warnings self response
    then (score - 15)%Q else score in
  Ok (py_max 0 (py_min 100 score)).

(** The score is accumulated over the rationals; [Binary64] holds the same
    loop on floats. *)
Definition _assess_completeness
  (self : MedicalEvaluator) (question response : string) : res Q :=
  let score := 0%Q in
  let total_elements := len (required_elements self) in
  score <-
    for_each
      (fun score (item : string * list string) =>
         let '(element_type, keywords) := item in
         if existsb (fun keyword => isin (lower keyword) (lower response))
                    keywords
         then share <- py_div 100 total_elements ;; Ok (score + share)%Q
         else Ok score)
      (required_elements self) score ;;
  let score :=
    if _has_comprehensive_differential self response
    then (score + 10)%Q else score in
  Ok (py_min 100 score).

Definition _assess_evidence_quality
  (self : MedicalEvaluator) (response : string) : Q :=
  let score := 70.0%Q in
  let evidence_indicators :=
    ["study"; "research"; "guidelines"; "evidence"; "clinical trial"] in
  let evidence_count :=
    count_if (fun indicator => isin indicator (lower response))
             evidence_indicators in
  let score := (score + inject_Z (Z.min 20 (evidence_count * 5)))%Q in
  let uncertainty_phrases :=
    ["may"; "might"; "consider"; "possible"; "likely"] in
  let score :=
    if existsb (fun phrase => isin phrase (lower response)) uncertainty_phrases
    then (score + 10)%Q else score in
  py_min 100 score.

(** *** Risk level, findings, recommendations, overall score *)

Definition _determine_risk_level
  (self : MedicalEvaluator) (safety_score accuracy_score : Q) : RiskLevel :=
  if Qltb safety_score 50 || Qltb accuracy_score 40 then CRITICAL
  else if Qltb safety_score 70 || Qltb accuracy_score 60 then HIGH
  else if Qltb safety_score 85 || Qltb accuracy_score 75 then MODERATE
  else LOW.

Definition ABSOLUTE_STATEMENTS : string :=
  "Contains absolute statements inappropriate for medical advice".
Definition DEFINITIVE_DIAGNOSIS : string :=
  "Attempts to provide definitive diagnosis without examination".
Definition MISSING_EMERGENCY : string :=
  "Missing emergency care recommendation".
Definition MISSING_DIFFERENTIAL : string :=
  "Missing differential diagnosis consideration".
Definition SELF_MEDICATION : string :=
  "Encourages self-medication without supervision".
Definition DELAYS_CARE : string :=
  "May delay necessary medical care".
Definition IMPROVE_ACCURACY : string :=
  "Improve clinical accuracy with evidence-based information".
Definition ADD_SAFETY : string :=
  "Add appropriate safety warnings and contraindications".
Definition INCLUDE_DIFFERENTIAL : string :=
  "Include comprehensive differential diagnosis".

(** [l.append(x)] *)
Definition append {A : Type} (l : list A) (x : A) : list A := (l ++ [x])%list.

Definition _identify_errors
  (self : MedicalEvaluator) (response : string) : res (list string) :=
  let errors := [] in
  absolute <- Re.search "always|never|100%|guaranteed" response Re.IGNORECASE ;;
  let errors := if absolute then append errors ABSOLUTE_STATEMENTS else errors in
  diagnoses <- Re.search "diagnose|diagnosis" response Re.IGNORECASE ;;
  let errors :=
    if diagnoses && negb (isin "cannot diagnose" (lower response))
    then append errors DEFINITIVE_DIAGNOSIS else errors in
  Ok errors.

Definition _identify_missing_elements
  (self : MedicalEvaluator) (question response : string) : res (list string) :=
  let missing := [] in
  emergency_symptoms <- getitem (critical_keywords self) "emergency" ;;
  let missing :=
    if existsb (fun symptom => isin symptom (lower question)) emergency_symptoms
    then
      if negb (isin "emergency" (lower response))
         && negb (isin "urgent" (lower response))
      then append missing MISSING_EMERGENCY else missing
    else missing in
  let missing :=
    if negb (isin "differential" (lower response))
       && negb (isin "consider" (lower response))
    then append missing MISSING_DIFFERENTIAL else missing in
  Ok missing.

Definition _identify_safety_concerns
  (self : MedicalEvaluator) (response : string) : res (list string) :=
  let concerns := [] in
  let concerns :=
    if isin "self-medicate" (lower response)
       || isin "treat yourself" (lower response)
    then append concerns SELF_MEDICATION else concerns in
  delays <- Re.search "delay.*care|wait.*see" response Re.IGNORECASE ;;
  let concerns := if delays then append concerns DELAYS_CARE else concerns in
  Ok concerns.

Definition _generate_recommendations
  (self : MedicalEvaluator) (accuracy safety completeness : Q) : list string :=
  let recommendations := [] in
  let recommendations :=
    if Qltb accuracy 80
    then append recommendations IMPROVE_ACCURACY else recommendations in
  let recommendations :=
    if Qltb safety 85
    then append recommendations ADD_SAFETY else recommendations in
  let recommendations :=
    if Qltb completeness 75
    then append recommendations INCLUDE_DIFFERENTIAL else recommendations in
  recommendations.

Definition _calculate_overall_score
  (self : MedicalEvaluator) (accuracy safety completeness evidence : Q) : res Q :=
  let weights : dict Q :=
    [ ("safety", 0.35%Q);
      ("accuracy", 0.30%Q);
      ("completeness", 0.20%Q);
      ("evidence", 0.15%Q) ] in
  w_accuracy <- getitem weights "accuracy" ;;
  w_safety <- getitem weights "safety" ;;
  w_completeness <- getitem weights "completeness" ;;
  w_evidence <- getitem weights "evidence" ;;
  Ok (accuracy * w_accuracy
      + safety * w_safety
      + completeness * w_completeness
      + evidence * w_evidence)%Q.

(** *** The public entry point *)

Definition evaluate_response {V : Type}
  (self : MedicalEvaluator) (question response : string)
  (expert_context : option (dict V)) : res EvaluationResult :=
  clinical_accuracy <- _assess_clinical_accuracy self question response ;;
  safety_score <- _assess_safety self question response ;;
  completeness_score <- _assess_completeness self question response ;;
  let evidence_quality := _assess_evidence_quality self response in
  let risk_level := _determine_risk_level self safety_score clinical_accuracy in
  errors <- _identify_errors self response ;;
  missing_elements <- _identify_missing_elements self question response ;;
  safety_concerns <- _identify_safety_concerns self response ;;
  let recommendations :=
    _generate_recommendations self clinical_accuracy safety_score
                              completeness_score in
  overall_score <-
    _calculate_overall_score self clinical_accuracy safety_score
                             completeness_score evidence_quality ;;
  Ok {| clinical_accuracy := clinical_accuracy;
        safety_score := safety_score;
        completeness_score := completeness_score;
        evidence_quality := evidence_quality;
        overall_score := overall_score;
        risk_level := risk_level;
        identified_errors := errors;
        missing_elements := missing_elements;
        safety_concerns := safety_concerns;
        recommendations := recommendations |}.

(** Severity of a risk level, for the order Low < Moderate < High < Critical. *)
Definition severity (l : RiskLevel) : nat :=
  match l with
  | LOW => 0
  | MODERATE => 1
  | HIGH => 2
  | CRITICAL => 3
  end.

(* ===================================================================== *)
(** ** The aggregator in binary64 arithmetic *)
(* ===================================================================== *)

Module Binary64.

#[local] Set Warnings "-inexact-float".

(** The float of a small integer. *)
Definition of_Z (z : Z) : float := PrimFloat.of_uint63 (Uint63.of_Z z).

(** The rational number a finite float stands for. *)
Definition value (x : float) : option Q :=
  match Prim2SF x with
  | S754_zero _ => Some 0%Q
  | S754_finite sign m e =>
      Some ((if sign then -1 else 1) * inject_Z (Zpos m) * Qpower 2 e)%Q
  | S754_infinity _ => None
  | S754_nan => None
  end.

Definition denotes (x : float) (q : Q) : bool :=
  match value x with
  | Some v => Qeq_bool v q
  | None => false
  end.

(** The return expression of [_calculate_overall_score], on floats. *)
Definition _calculate_overall_score
  (accuracy safety completeness evidence : float) : float :=
  (accuracy * 0.30 + safety * 0.35 + completeness * 0.20 + evidence * 0.15)%float.

(** The values each assessor can return. *)
Definition accuracy_levels : list Z := [40; 50; 60; 65; 70; 75; 85; 95]%Z.
Definition safety_levels : list Z :=
  [0; 5; 10; 15; 25; 30; 35; 45; 50; 55; 65; 70; 75; 90]%Z.
Definition completeness_levels : list Z :=
  [0; 10; 25; 35; 50; 60; 75; 85; 100]%Z.
Definition evidence_levels : list Z := [70; 75; 80; 85; 90; 95; 100]%Z.

(** At these four scores the floats stand for the scores, and the float sum
    stands for the rational weighted sum: no rounding error is left. *)
Definition exact_at (a s c e : Z) : bool :=
  denotes (of_Z a) (inject_Z a)
  && denotes (of_Z s) (inject_Z s)
  && denotes (of_Z c) (inject_Z c)
  && denotes (of_Z e) (inject_Z e)
  && denotes (_calculate_overall_score (of_Z a) (of_Z s) (of_Z c) (of_Z e))
       (inject_Z a * 0.30 + inject_Z s * 0.35 + inject_Z c * 0.20
        + inject_Z e * 0.15)%Q.

(** [min(a, b)] on floats: the first argument unless the second is
    strictly smaller. *)
Definition py_min (a b : float) : float := if (b <? a)%float then b else a.

(** [a / b] on integers, as a float. *)
Definition py_div (a b : Z) : res float :=
  if (b =? 0)%Z then Raise ZeroDivisionError
  else Ok (of_Z a / of_Z b)%float.

(** [_assess_completeness], with the score held in a float. *)
Definition _assess_completeness
  (self : MedicalEvaluator) (question response : string) : res float :=
  let score := of_Z 0 in
  let total_elements := len (required_elements self) in
  score <-
    for_each
      (fun score (item : string * list string) =>
         let '(element_type, keywords) := item in
         if existsb (fun keyword => isin (lower keyword) (lower response))
                    keywords
         then share <- py_div 100 total_elements ;; Ok (score + share)%float
         else Ok score)
      (required_elements self) score ;;
  let score :=
    if _has_comprehensive_differential self response
    then (score + of_Z 10)%float else score in
  Ok (py_min (of_Z 100) score).

(** [f] holds at every choice of one element from each list. *)
Definition all4 {A : Type} (f : A -> A -> A -> A -> bool)
  (l1 l2 l3 l4 : list A) : bool :=
  forallb (fun a =>
    forallb (fun s => forallb (fun c => forallb (fun e => f a s c e) l4) l3) l2)
    l1.

End Binary64.

(* ===================================================================== *)
(** ** Vocabulary of the statements *)
(* ===================================================================== *)

(** The items of a pattern that is plain text. *)
Definition lits (w : string) : list Re.regex :=
  map (fun c => Re.Sym (Re.Lit c)) (list_ascii_of_string w).

(** What the pattern [x.*y] compiles to, for plain [x] and [y]. *)
Definition gap (x y : string) : Re.regex :=
  Re.seq (lits x ++ Re.Star (Re.Sym Re.Dot) :: lits y).

(** [x] occurs in [t] and, later on the same line, [y] occurs (both in any
    letter case). *)
Definition follows (x y t : string) : Prop :=
  exists a u m v b,
    t = a ++ u ++ m ++ v ++ b
    /\ Str.lower u = x /\ Str.one_line m = true /\ Str.lower v = y.

(** Base 90 less the penalties that are due, and no lower than 0. *)
Definition safety_value (dangerous missing self_treatment unwarned : bool) : Q :=
  Qmax 0 (90 - (if dangerous then 40 else 0) - (if missing then 25 else 0)
          - (if self_treatment then 20 else 0) - (if unwarned then 15 else 0)).

(** The two regular-expression checks of the accuracy assessor, as truth
    values of searches with the compiled patterns. *)
Definition dosage_regex : Re.regex :=
  Re.seq ([ Re.Cat (Re.Sym Re.Digit) (Re.Star (Re.Sym Re.Digit));
            Re.Star (Re.Sym Re.Space);
            Re.Sym (Re.Lit "g");
            Re.Star (Re.Sym Re.Dot) ] ++ lits "aspirin").

Definition contraindicated (response : string) : bool :=
  Re.find Re.IGNORECASE (gap "aspirin" "pregnancy") response
  || Re.find Re.IGNORECASE (gap "ace inhibitor" "pregnancy") response.

Definition dosage_error (response : string) : bool :=
  Re.find Re.IGNORECASE dosage_regex response.

(** Base 85, the penalties that are due, the bonus if earned. *)
Definition accuracy_value (contra dosage evidence : bool) : Q :=
  85 - (if contra then 20 else 0) - (if dosage then 25 else 0)
  + (if evidence then 10 else 0).

(** A required-element group is present when one of its synonyms is. *)
Definition group_present (response : string) (item : string * list string)
  : bool :=
  existsb (fun keyword => Str.isin (Str.lower keyword) (Str.lower response))
          (snd item).

Definition groups_present (self : MedicalEvaluator) (response : string) : Z :=
  count_if (group_present response) (required_elements self).

(** The completeness score before the cap. *)
Definition completeness_raw (self : MedicalEvaluator) (response : string) : Q :=
  inject_Z (groups_present self response)
  * (100 / inject_Z (len (required_elements self)))
  + (if _has_comprehensive_differential self response then 10 else 0).

(** The phrase lists the methods hold as local variables. *)
Definition diff_indicators : list string :=
  ["differential"; "consider"; "rule out"; "possible causes"].
Definition evidence_indicators : list string :=
  ["study"; "research"; "guidelines"; "evidence"; "clinical trial"].
Definition uncertainty_phrases : list string :=
  ["may"; "might"; "consider"; "possible"; "likely"].
Definition evidence_terms : list string :=
  ["study"; "research"; "guidelines"; "clinical trial"].
Definition dangerous_phrases : list string :=
  ["ignore symptoms"; "skip medication"; "stop treatment"].
Definition other_phrases : list string :=
  ["emergency"; "urgent"; "immediately"; "self-treat"; "treat at home";
   "medication"; "contraindication"; "cannot diagnose"; "self-medicate";
   "treat yourself"].

(** The plain words of the regular expressions. *)
Definition pattern_words : list string :=
  ["aspirin"; "ace inhibitor"; "pregnancy"; "always"; "never"; "100%";
   "guaranteed"; "diagnose"; "diagnosis"; "delay"; "care"; "wait"; "see"].

(** Every word or phrase the evaluator looks for in a response. *)
Definition all_keywords (self : MedicalEvaluator) : list string :=
  (flat_map snd (critical_keywords self)
   ++ flat_map snd (required_elements self)
   ++ diff_indicators ++ evidence_indicators ++ uncertainty_phrases
   ++ evidence_terms ++ dangerous_phrases ++ other_phrases
   ++ pattern_words)%list.

(** None of them occurs in the response, in any letter case. *)
Definition no_keyword_match (self : MedicalEvaluator) (response : string)
  : bool :=
  forallb (fun k => negb (Str.isin (Str.lower k) (Str.lower response)))
          (all_keywords self).

(** Sample inputs used to run the evaluator. *)
Definition pregnancy_question : string :=
  "Is it safe to take aspirin during pregnancy?".
Definition drug_first_response : string :=
  "Aspirin is safe in pregnancy.".
Definition drug_last_response : string :=
  "During pregnancy, avoid aspirin.".
Definition two_line_response : string :=
  "Aspirin is widely used." ++ String "010" "Pregnancy is another matter.".
Definition neutral_response : string :=
  "Drink plenty of water and get some rest.".
Definition thorough_response : string :=
  "Consider the differential; examination, imaging and treatment are needed.".
Definition disclaimer_response : string :=
  "I cannot diagnose this; a diagnosis needs an examination.".

(** One of the phrases of [l] occurs in [t], in some letter case. *)
Definition any_occurs (l : list string) (t : string) : Prop :=
  exists k, In k l /\ Str.occurs k t.

(** The value of [critical_keywords['emergency']] after construction. *)
Definition emergency_symptoms : list string :=
  ["chest pain"; "shortness of breath"; "severe headache";
   "loss of consciousness"; "severe bleeding"; "stroke symptoms"].

(** The words that count as emergency advice for the safety score. *)
Definition emergency_advice : list string :=
  ["emergency"; "urgent"; "immediately"].

(** Every character of [s] passes [p]. *)
Fixpoint all_chars (p : ascii -> bool) (s : string) : bool :=
  match s with
  | EmptyString => true
  | String c t => p c && all_chars p t
  end.

(** A run of digits, optional white space, the letter g and, later on the
    same line, [aspirin] (letters in any case). *)
Definition dosage_shape (t : string) : Prop :=
  exists a d ds w g m x b,
    t = a ++ String d ds ++ w ++ g ++ m ++ x ++ b
    /\ all_chars Re.is_digit (String d ds) = true
    /\ all_chars Re.is_space w = true
    /\ Str.lower g = "g"
    /\ Str.one_line m = true
    /\ Str.lower x = "aspirin".

(** More sample inputs. *)
Definition emergency_question : string :=
  "I have sudden chest pain. What should I do?".
Definition heartburn_response : string :=
  "Sounds like heartburn. Try some antacids and rest.".
Definition immediately_response : string :=
  "Go to the nearest hospital immediately.".
Definition best_response : string :=
  "Consider the differential; examination, imaging and treatment follow guidelines from research, a study and clinical trial evidence.".
Definition worst_response : string :=
  "Ignore symptoms and self-treat: aspirin suits pregnancy, 5 g aspirin daily.".
Definition terse_question : string :=
  "Chest pain?".
Definition shouted_response : string :=
  "SOUNDS LIKE HEARTBURN. TRY SOME ANTACIDS AND REST.".

(** The completeness score of the constructed evaluator, from the four
    groups that are present and the bonus. *)
Definition completeness_value (g1 g2 g3 g4 bonus : bool) : Q :=
  Qmin 100
    (25 * ((if g1 then 1 else 0) + (if g2 then 1 else 0)
           + (if g3 then 1 else 0) + (if g4 then 1 else 0))
     + (if bonus then 10 else 0)).

Definition differential_group : string * list string :=
  ("differential_diagnosis",
   ["differential"; "consider"; "rule out"; "possible causes"]).
Definition examination_group : string * list string :=
  ("examination", ["physical exam"; "examination"; "assess"; "evaluate"]).
Definition investigations_group : string * list string :=
  ("investigations", ["test"; "lab"; "imaging"; "x-ray"; "blood work"]).
Definition management_group : string * list string :=
  ("management", ["treatment"; "management"; "therapy"; "medication"]).

(** How many of the evidence indicators occur in the response. *)
Definition evidence_count (response : string) : Z :=
  count_if (fun indicator => Str.isin indicator (Str.lower response))
           evidence_indicators.

(* ===================================================================== *)
(** ** Facts about text *)
(* ===================================================================== *)

Module StrFacts.
Import Str.

Lemma app_assoc (a b c : string) : (a ++ b) ++ c = a ++ b ++ c.
Proof. induction a as [|x a IH]; simpl; [reflexivity | now rewrite IH]. Qed.

Lemma app_eq_nil (a b : string) : a ++ b = "" -> a = "" /\ b = "".
Proof. destruct a; simpl; [auto | discriminate]. Qed.

Lemma lower_app (a b : string) : lower (a ++ b) = lower a ++ lower b.
Proof. induction a as [|x a IH]; simpl; [reflexivity | now rewrite IH]. Qed.

(** A split of [lower h] comes from a split of [h]. *)
Lemma lower_split (u v h : string) :
  lower h = u ++ v -> exists a b, h = a ++ b /\ lower a = u /\ lower b = v.
Proof.
  revert h; induction u as [|c u IH]; intros h E.
  - exists "", h. auto.
  - destruct h as [|x h]; simpl in E; [discriminate|].
    injection E as Ec Et. destruct (IH _ Et) as (a & b & -> & Ha & Hb).
    exists (String x a), b. simpl. now rewrite Ec, Ha, Hb.
Qed.

Lemma prefix_app (n b : string) : prefix n (n ++ b) = true.
Proof.
  induction n as [|c n IH]; simpl.
  - now destruct b.
  - destruct (ascii_dec c c); [exact IH | congruence].
Qed.

Lemma prefix_inv (n h : string) :
  prefix n h = true -> exists b, h = n ++ b.
Proof.
  revert h; induction n as [|c n IH]; intros h E.
  - exists h. reflexivity.
  - destruct h as [|x h]; simpl in E; [discriminate|].
    destruct (ascii_dec c x) as [->|]; [|discriminate].
    destruct (IH _ E) as (b & ->). now exists b.
Qed.

Lemma isin_nil (n : string) : isin n "" = prefix n "".
Proof. simpl. apply orb_false_r. Qed.

Lemma isin_cons (n : string) (x : ascii) (h : string) :
  isin n (String x h) = prefix n (String x h) || isin n h.
Proof. reflexivity. Qed.

(** The [in] operator finds exactly the contiguous occurrences. *)
Lemma isin_iff (n h : string) :
  isin n h = true <-> exists a b, h = a ++ n ++ b.
Proof.
  split.
  - induction h as [|x h IH]; intros E.
    + rewrite isin_nil in E. destruct (prefix_inv _ _ E) as (b & ->).
      now exists "", b.
    + rewrite isin_cons in E. apply orb_true_iff in E as [E|E].
      * destruct (prefix_inv _ _ E) as (b & E'). exists "", b. exact E'.
      * destruct (IH E) as (a & b & ->). now exists (String x a), b.
  - intros (a & b & ->). induction a as [|x a IH].
    + change ("" ++ n ++ b) with (n ++ b).
      destruct (n ++ b) as [|y t] eqn:E.
      * apply app_eq_nil in E as [-> ->]. reflexivity.
      * rewrite isin_cons, <- E, prefix_app. reflexivity.
    + change (String x a ++ n ++ b) with (String x (a ++ n ++ b)).
      rewrite isin_cons, IH. apply orb_true_r.
Qed.

Lemma isin_lower_occurs (k h : string) :
  isin k (lower h) = true <-> occurs k h.
Proof.
  rewrite isin_iff. split.
  - intros (u & v & E).
    destruct (lower_split _ _ _ E) as (a & t & -> & Ha & Ht).
    destruct (lower_split _ _ _ Ht) as (x & b & -> & Hx & Hb).
    now exists a, x, b.
  - intros (a & x & b & -> & <-).
    exists (lower a), (lower b). now rewrite !lower_app.
Qed.

Lemma not_isin_lower (k h : string) :
  isin k (lower h) = false <-> ~ occurs k h.
Proof.
  rewrite <- isin_lower_occurs. destruct (isin k (lower h)); split; congruence.
Qed.

End StrFacts.

(* ===================================================================== *)
(** ** Facts about matching *)
(* ===================================================================== *)

Module ReFacts.
Import Str StrFacts Re.

Section Language.
Variable fl : flags.

Local Notation "r ~= w" := (Matches fl r w) (at level 70).

Lemma empty_inv w : ~ Empty ~= w.
Proof. intros H; inversion H. Qed.

Lemma eps_inv w : Eps ~= w <-> w = "".
Proof. split; [intros H; now inversion H | intros ->; constructor]. Qed.

Lemma sym_inv a w :
  Sym a ~= w <-> exists c, w = String c "" /\ atom_ok fl a c = true.
Proof.
  split.
  - intros H; inversion H; subst. eauto.
  - intros (c & -> & H). now constructor.
Qed.

Lemma cat_inv r1 r2 w :
  Cat r1 r2 ~= w <-> exists w1 w2, w = w1 ++ w2 /\ r1 ~= w1 /\ r2 ~= w2.
Proof.
  split.
  - intros H; inversion H; subst. eauto.
  - intros (w1 & w2 & -> & H1 & H2). now constructor.
Qed.

Lemma alt_inv r1 r2 w : Alt r1 r2 ~= w <-> r1 ~= w \/ r2 ~= w.
Proof.
  split.
  - intros H; inversion H; subst; auto.
  - intros [H|H]; [now apply MAltL | now apply MAltR].
Qed.

Lemma nullable_iff r : nullable r = true <-> r ~= "".
Proof.
  induction r as [| |a|r1 IH1 r2 IH2|r1 IH1 r2 IH2|r IH]; simpl.
  - split; [discriminate | intros H; now apply empty_inv in H].
  - split; [constructor | reflexivity].
  - split; [discriminate | intros H; inversion H].
  - rewrite andb_true_iff, IH1, IH2, cat_inv. split.
    + intros [H1 H2]. now exists "", "".
    + intros (w1 & w2 & E & H1 & H2). symmetry in E.
      apply app_eq_nil in E as [-> ->]. auto.
  - now rewrite orb_true_iff, IH1, IH2, alt_inv.
  - split; [constructor | reflexivity].
Qed.

Lemma mkCat_iff r1 r2 w : mkCat r1 r2 ~= w <-> Cat r1 r2 ~= w.
Proof.
  rewrite cat_inv.
  assert (G : Cat r1 r2 ~= w <->
              exists w1 w2, w = w1 ++ w2 /\ r1 ~= w1 /\ r2 ~= w2)
    by apply cat_inv.
  assert (E1 : forall r, ~ (exists w1 w2, w = w1 ++ w2 /\ Empty ~= w1 /\ r ~= w2)).
  { intros r (w1 & w2 & _ & H & _). now apply empty_inv in H. }
  assert (E2 : forall r, ~ (exists w1 w2, w = w1 ++ w2 /\ r ~= w1 /\ Empty ~= w2)).
  { intros r (w1 & w2 & _ & _ & H). now apply empty_inv in H. }
  assert (E3 : forall r, r ~= w <->
                exists w1 w2, w = w1 ++ w2 /\ Eps ~= w1 /\ r ~= w2).
  { intros r. split.
    - intros H. exists "", w. repeat split; [constructor | exact H].
    - intros (w1 & w2 & -> & H1 & H2). apply eps_inv in H1 as ->. exact H2. }
  destruct r1; destruct r2; simpl; try exact G; try apply E3;
    (split; [intros H; now apply empty_inv in H
            | intros H; exfalso; first [now apply E1 in H | now apply E2 in H]]).
Qed.

Lemma mkAlt_iff r1 r2 w : mkAlt r1 r2 ~= w <-> Alt r1 r2 ~= w.
Proof.
  rewrite alt_inv.
  destruct r1; destruct r2; simpl; try (rewrite alt_inv; reflexivity);
    split; auto; intros [H|H]; auto; now apply empty_inv in H.
Qed.

(** A non-empty word of [Star r] starts with a non-empty word of [r]. *)
Lemma star_cons r c w :
  Star r ~= String c w ->
  exists w1 w2, w = w1 ++ w2 /\ r ~= String c w1 /\ Star r ~= w2.
Proof.
  intros H. remember (Star r) as r' eqn:Er. remember (String c w) as s eqn:Es.
  revert w Es.
  induction H as [| | | | | |r0 w1 w2 H1 _ H2 IH2]; intros u Es;
    try discriminate.
  injection Er as ->.
  destruct w1 as [|x w1]; simpl in Es.
  - apply IH2; auto.
  - injection Es as -> <-. eauto.
Qed.

Lemma deriv_iff r : forall c w, deriv fl c r ~= w <-> r ~= String c w.
Proof.
  induction r as [| |a|r1 IH1 r2 IH2|r1 IH1 r2 IH2|r IH]; intros c w; simpl.
  - split; intros H; now apply empty_inv in H.
  - split; intros H; [now apply empty_inv in H | inversion H].
  - rewrite sym_inv. destruct (atom_ok fl a c) eqn:E.
    + rewrite eps_inv. split.
      * intros ->. eauto.
      * intros (c' & Ec & _). now injection Ec.
    + split; [intros H; now apply empty_inv in H|].
      intros (c' & Ec & H). injection Ec as -> _. congruence.
  - assert (G : Cat r1 r2 ~= String c w <->
                Cat (deriv fl c r1) r2 ~= w \/
                (nullable r1 = true /\ deriv fl c r2 ~= w)).
    { rewrite !cat_inv, nullable_iff, IH2. split.
      - intros (w1 & w2 & E & H1 & H2). destruct w1 as [|x w1]; simpl in E.
        + right. subst w2. auto.
        + injection E as <- ->. left. exists w1, w2.
          rewrite IH1. auto.
      - intros [(w1 & w2 & -> & H1 & H2) | [H1 H2]].
        + exists (String c w1), w2. rewrite <- IH1. auto.
        + exists "", (String c w). auto. }
    rewrite G. destruct (nullable r1).
    + rewrite mkAlt_iff, alt_inv, mkCat_iff. intuition.
    + rewrite mkCat_iff. intuition discriminate.
  - now rewrite mkAlt_iff, !alt_inv, IH1, IH2.
  - rewrite mkCat_iff, cat_inv. split.
    + intros (w1 & w2 & -> & H1 & H2). apply IH in H1.
      change (String c (w1 ++ w2)) with (String c w1 ++ w2).
      now constructor.
    + intros H. apply star_cons in H as (w1 & w2 & -> & H1 & H2).
      exists w1, w2. rewrite IH. auto.
Qed.

(** An anchored match: some prefix is in the language. *)
Lemma match_here_iff r s :
  match_here fl r s = true <-> exists w t, s = w ++ t /\ r ~= w.
Proof.
  revert r; induction s as [|c s IH]; intros r; simpl.
  - rewrite orb_false_r, nullable_iff. split.
    + intros H. now exists "", "".
    + intros (w & t & E & H). symmetry in E.
      apply app_eq_nil in E as [-> _]. exact H.
  - rewrite orb_true_iff, nullable_iff, IH. split.
    + intros [H | (w & t & -> & H)].
      * now exists "", (String c s).
      * exists (String c w), t. now rewrite <- deriv_iff.
    + intros (w & t & E & H). destruct w as [|x w]; simpl in E.
      * now left.
      * injection E as <- ->. right. exists w, t. now rewrite deriv_iff.
  Qed.

Lemma find_nil r : find fl r "" = match_here fl r "".
Proof. simpl. apply orb_false_r. Qed.

Lemma find_cons r c s :
  find fl r (String c s) = match_here fl r (String c s) || find fl r s.
Proof. reflexivity. Qed.

(** A search succeeds exactly when some substring is in the language. *)
Lemma find_iff r s :
  find fl r s = true <-> exists a w b, s = a ++ w ++ b /\ r ~= w.
Proof.
  induction s as [|c s IH].
  - rewrite find_nil, match_here_iff. split.
    + intros (w & t & E & H). now exists "", w, t.
    + intros (a & w & b & E & H). symmetry in E.
      apply app_eq_nil in E as [-> E]. now exists w, b.
  - rewrite find_cons, orb_true_iff, match_here_iff, IH. split.
    + intros [(w & t & E & H) | (a & w & b & -> & H)].
      * now exists "", w, t.
      * now exists (String c a), w, b.
    + intros (a & w & b & E & H). destruct a as [|x a]; simpl in E.
      * left. now exists w, b.
      * injection E as <- ->. right. now exists a, w, b.
Qed.

End Language.

Lemma find_alt fl r1 r2 s :
  find fl (Alt r1 r2) s = find fl r1 s || find fl r2 s.
Proof.
  apply eq_true_iff_eq. rewrite orb_true_iff, !find_iff. split.
  - intros (a & w & b & E & H). apply alt_inv in H as [H|H]; [left|right];
      now exists a, w, b.
  - intros [(a & w & b & E & H) | (a & w & b & E & H)];
      exists a, w, b; rewrite alt_inv; auto.
Qed.

Lemma seq_app fl l1 l2 w :
  Matches fl (seq (l1 ++ l2)) w <->
  exists w1 w2, w = w1 ++ w2 /\ Matches fl (seq l1) w1 /\ Matches fl (seq l2) w2.
Proof.
  revert w; induction l1 as [|r l1 IH]; intros w; simpl.
  - split.
    + intros H. exists "", w. repeat split; [constructor | exact H].
    + intros (w1 & w2 & -> & H1 & H2). apply eps_inv in H1 as ->. exact H2.
  - rewrite cat_inv. split.
    + intros (u & v & -> & Hu & Hv). apply IH in Hv as (w1 & w2 & -> & H1 & H2).
      exists (u ++ w1), w2. rewrite app_assoc, cat_inv. eauto 7.
    + intros (w1 & w2 & -> & H1 & H2).
      apply cat_inv in H1 as (u & v & -> & Hu & Hv).
      exists u, (v ++ w2). rewrite app_assoc, IH. eauto 7.
Qed.

(** Plain text under [IGNORECASE] matches its spellings in any case. *)
Lemma lits_iff k w :
  Matches IGNORECASE (seq (lits k)) w <-> lower w = lower k.
Proof.
  revert w; induction k as [|c k IH]; intros w.
  - change (seq (lits "")) with Eps. rewrite eps_inv.
    destruct w; simpl; split; congruence.
  - change (seq (lits (String c k)))
      with (Cat (Sym (Lit c)) (seq (lits k))).
    rewrite cat_inv. split.
    + intros (u & v & -> & Hu & Hv). apply sym_inv in Hu as (x & -> & Hx).
      apply IH in Hv. simpl in *. apply Ascii.eqb_eq in Hx. congruence.
    + intros E. destruct w as [|x w]; simpl in E; [discriminate|].
      injection E as Ex Ew. exists (String x ""), w. repeat split.
      * constructor. simpl. now apply Ascii.eqb_eq.
      * now apply IH.
Qed.

(** [.*] takes any run of characters without a line feed. *)
Lemma dot_star_iff fl m :
  Matches fl (Star (Sym Dot)) m <-> one_line m = true.
Proof.
  split.
  - intros H. remember (Star (Sym Dot)) as r eqn:Er.
    induction H as [| | | | | |r0 w1 w2 H1 _ H2 IH2]; try discriminate.
    + reflexivity.
    + injection Er as ->. apply sym_inv in H1 as (c & -> & Hc).
      simpl in *. now rewrite Hc, IH2.
  - induction m as [|c m IH]; simpl; intros H.
    + constructor.
    + apply andb_true_iff in H as [Hc Hm].
      change (String c m) with (String c "" ++ m).
      constructor; [now constructor | auto].
Qed.

Lemma find_lits_iff k t :
  find IGNORECASE (seq (lits k)) t = true <-> occurs (lower k) t.
Proof.
  rewrite find_iff. split.
  - intros (a & w & b & -> & H). apply lits_iff in H. now exists a, w, b.
  - intros (a & w & b & -> & H). exists a, w, b. now rewrite lits_iff.
Qed.

Lemma gap_iff x y w :
  Matches IGNORECASE (gap x y) w <->
  exists u m v, w = u ++ m ++ v
                /\ lower u = lower x /\ one_line m = true /\ lower v = lower y.
Proof.
  unfold gap. rewrite seq_app. split.
  - intros (u & t & -> & Hu & Ht). apply lits_iff in Hu.
    simpl in Ht. apply cat_inv in Ht as (m & v & -> & Hm & Hv).
    apply dot_star_iff in Hm. apply lits_iff in Hv. now exists u, m, v.
  - intros (u & m & v & -> & Hu & Hm & Hv). exists u, (m ++ v).
    rewrite lits_iff. repeat split; [exact Hu|].
    simpl. constructor; [now apply dot_star_iff | now apply lits_iff].
Qed.

Lemma find_gap_iff x y t :
  find IGNORECASE (gap x y) t = true <-> follows (lower x) (lower y) t.
Proof.
  rewrite find_iff. split.
  - intros (a & w & b & -> & H).
    apply gap_iff in H as (u & m & v & -> & Hu & Hm & Hv).
    exists a, u, m, v, b. now rewrite !app_assoc.
  - intros (a & u & m & v & b & -> & Hu & Hm & Hv).
    exists a, (u ++ m ++ v), b. rewrite gap_iff, !app_assoc.
    split; [reflexivity|]. now exists u, m, v.
Qed.

(** A match of items that end in plain text ends with that text. *)
Lemma find_suffix_lits pre k t :
  find IGNORECASE (seq (pre ++ lits k)) t = true -> occurs (lower k) t.
Proof.
  rewrite find_iff. intros (a & w & b & -> & H).
  apply seq_app in H as (w1 & w2 & -> & _ & H2). apply lits_iff in H2.
  exists (a ++ w1), w2, b. now rewrite !app_assoc.
Qed.

Lemma follows_occurs x y t : follows x y t -> occurs x t /\ occurs y t.
Proof.
  intros (a & u & m & v & b & -> & Hu & _ & Hv). split.
  - now exists a, u, (m ++ v ++ b).
  - exists (a ++ u ++ m), v, b. now rewrite !app_assoc.
Qed.

End ReFacts.

(* ===================================================================== *)
(** ** Facts about the evaluator's methods *)
(* ===================================================================== *)

Module EngineFacts.
Import Str StrFacts Re ReFacts.
Local Open Scope Q_scope.

Lemma Ok_inj {A : Type} (a b : A) : Ok a = Ok b -> a = b.
Proof. congruence. Qed.

(** *** Scores *)

Lemma Qltb_lt x y : Qltb x y = true <-> x < y.
Proof.
  unfold Qltb. rewrite Qlt_alt. destruct (x ?= y); split; congruence.
Qed.

Lemma Qltb_ge x y : Qltb x y = false <-> y <= x.
Proof.
  split.
  - intros E. apply Qnot_lt_le. intros H. apply Qltb_lt in H. congruence.
  - intros H. destruct (Qltb x y) eqn:E; [|reflexivity].
    apply Qltb_lt in E. exfalso. now apply (Qle_not_lt _ _ H).
Qed.

Ltac qcase x y :=
  let E := fresh "E" in
  destruct (Qltb x y) eqn:E;
  [apply Qltb_lt in E | apply Qltb_ge in E].

Lemma py_min_spec a b :
  (b < a /\ py_min a b = b) \/ (a <= b /\ py_min a b = a).
Proof. unfold py_min. qcase b a; auto. Qed.

Lemma py_max_spec a b :
  (a < b /\ py_max a b = b) \/ (b <= a /\ py_max a b = a).
Proof. unfold py_max. qcase a b; auto. Qed.

Lemma py_min_Qmin a b : py_min a b == Qmin a b.
Proof.
  destruct (py_min_spec a b) as [[H ->] | [H ->]].
  - symmetry. apply Q.min_r. now apply Qlt_le_weak.
  - symmetry. now apply Q.min_l.
Qed.

Lemma clamp_bounds x : 0 <= py_max 0 (py_min 100 x) <= 100.
Proof.
  destruct (py_min_spec 100 x) as [[H ->] | [H ->]];
    [destruct (py_max_spec 0 x) as [[H' ->] | [H' ->]]
    |destruct (py_max_spec 0 100) as [[H' ->] | [H' ->]]]; lra.
Qed.

Lemma count_if_cons {A} (p : A -> bool) x l :
  count_if p (x :: l) = ((if p x then 1 else 0) + count_if p l)%Z.
Proof.
  unfold count_if. cbn [filter]. destruct (p x); cbn [List.length];
    rewrite ?Nat2Z.inj_succ; lia.
Qed.

Lemma count_if_nonneg {A} (p : A -> bool) l : (0 <= count_if p l)%Z.
Proof. unfold count_if. lia. Qed.

(** *** The patterns compile *)

Lemma compile_aspirin :
  compile "aspirin.*pregnancy" = Ok (gap "aspirin" "pregnancy").
Proof. reflexivity. Qed.

Lemma compile_ace :
  compile "ace inhibitor.*pregnancy" = Ok (gap "ace inhibitor" "pregnancy").
Proof. reflexivity. Qed.

Lemma compile_dosage : compile "\d+\s*g.*aspirin" = Ok dosage_regex.
Proof. reflexivity. Qed.

Lemma compile_absolute :
  compile "always|never|100%|guaranteed" =
  Ok (Alt (seq (lits "always"))
       (Alt (seq (lits "never"))
         (Alt (seq (lits "100%")) (seq (lits "guaranteed"))))).
Proof. reflexivity. Qed.

Lemma compile_diagnose :
  compile "diagnose|diagnosis" =
  Ok (Alt (seq (lits "diagnose")) (seq (lits "diagnosis"))).
Proof. reflexivity. Qed.

Lemma compile_delay :
  compile "delay.*care|wait.*see" =
  Ok (Alt (gap "delay" "care") (gap "wait" "see")).
Proof. reflexivity. Qed.

(** *** The helper checks *)

Lemma contraindicated_eq self response :
  _contains_contraindicated_advice self response = Ok (contraindicated response).
Proof.
  unfold _contains_contraindicated_advice, contraindicated, search.
  cbn [anyM]. rewrite compile_aspirin, compile_ace. cbn [bind].
  destruct (find IGNORECASE (gap "aspirin" "pregnancy") response);
    [reflexivity|].
  now destruct (find IGNORECASE (gap "ace inhibitor" "pregnancy") response).
Qed.

Lemma dosage_error_eq self response :
  _contains_dosage_errors self response = Ok (dosage_error response).
Proof.
  unfold _contains_dosage_errors, search. now rewrite compile_dosage.
Qed.

Lemma contraindicated_iff response :
  contraindicated response = true <->
  follows "aspirin" "pregnancy" response
  \/ follows "ace inhibitor" "pregnancy" response.
Proof.
  unfold contraindicated. now rewrite orb_true_iff, !find_gap_iff.
Qed.

Lemma dosage_error_aspirin response :
  dosage_error response = true -> occurs "aspirin" response.
Proof. unfold dosage_error, dosage_regex. apply find_suffix_lits. Qed.

(** *** The assessors *)

Lemma accuracy_eq self question response :
  exists v,
    _assess_clinical_accuracy self question response = Ok v
    /\ v == accuracy_value (contraindicated response) (dosage_error response)
                           (_contains_evidence_references self response).
Proof.
  unfold _assess_clinical_accuracy.
  rewrite contraindicated_eq, dosage_error_eq. cbn [bind].
  eexists; split; [reflexivity|].
  unfold _contains_outdated_information, accuracy_value.
  destruct (contraindicated response), (dosage_error response),
    (_contains_evidence_references self response); reflexivity.
Qed.

Lemma accuracy_bounds self question response v :
  _assess_clinical_accuracy self question response = Ok v -> 0 <= v <= 100.
Proof.
  unfold _assess_clinical_accuracy.
  rewrite contraindicated_eq, dosage_error_eq. cbn [bind].
  intros E; injection E as <-. apply clamp_bounds.
Qed.

Lemma emergency_symptoms_ok :
  exists l, getitem (critical_keywords __init__) "emergency" = Ok l.
Proof. eexists. reflexivity. Qed.

Lemma safety_eq question response :
  exists missing v,
    _missing_emergency_warnings __init__ question response = Ok missing
    /\ _assess_safety __init__ question response = Ok v
    /\ v == safety_value (_contains_dangerous_advice __init__ response)
                         missing
                         (_inappropriate_self_treatment __init__ response)
                         (_missing_contraindication_warnings __init__ response).
Proof.
  unfold _assess_safety.
  destruct (_missing_emergency_warnings __init__ question response)
    as [missing|] eqn:Em.
  - cbn [bind]. exists missing. eexists. split; [reflexivity|].
    split; [reflexivity|].
    destruct (_contains_dangerous_advice __init__ response), missing,
      (_inappropriate_self_treatment __init__ response),
      (_missing_contraindication_warnings __init__ response); reflexivity.
  - unfold _missing_emergency_warnings in Em.
    destruct emergency_symptoms_ok as (l & El). rewrite El in Em. discriminate.
Qed.

Lemma safety_total question response :
  exists v, _assess_safety __init__ question response = Ok v /\ 0 <= v <= 100.
Proof.
  unfold _assess_safety, _missing_emergency_warnings.
  destruct emergency_symptoms_ok as (l & ->). cbn [bind].
  eexists; split; [reflexivity | apply clamp_bounds].
Qed.

(** A loop that adds the same credit [c] for every element that hits. *)
Lemma for_each_credit {A} (hit : A -> bool) (c : Q)
      (body : Q -> A -> res Q) (l : list A) :
  (forall s x, body s x = Ok (if hit x then s + c else s)) ->
  forall score, exists v,
    for_each body l score = Ok v
    /\ v == score + inject_Z (count_if hit l) * c.
Proof.
  intros Hb. induction l as [|x l IH]; intros score.
  - exists score. split; [reflexivity|].
    change (inject_Z (count_if hit [])) with 0. ring.
  - cbn [for_each]. rewrite Hb, count_if_cons. cbn [bind].
    destruct (hit x).
    + destruct (IH (score + c)) as (v & Ev & Hv). exists v.
      split; [exact Ev|]. rewrite Hv, inject_Z_plus.
      change (inject_Z 1) with 1. ring.
    + destruct (IH score) as (v & Ev & Hv). exists v.
      split; [exact Ev|]. rewrite Hv, inject_Z_plus.
      change (inject_Z 0) with 0. ring.
Qed.

Lemma completeness_loop response total l score :
  (total <> 0)%Z ->
  exists v,
    for_each
      (fun score (item : string * list string) =>
         let '(element_type, keywords) := item in
         if existsb (fun keyword => isin (lower keyword) (lower response))
                    keywords
         then share <- py_div 100 total ;; Ok (score + share)
         else Ok score)
      l score = Ok v
    /\ v == score
            + inject_Z (count_if (group_present response) l)
              * (100 / inject_Z total).
Proof.
  intros Ht. apply for_each_credit. intros s [ty kws].
  unfold group_present, py_div. cbn [snd].
  destruct (total =? 0)%Z eqn:E0; [apply Z.eqb_eq in E0; contradiction|].
  now destruct (existsb _ kws).
Qed.

Lemma completeness_eq self question response :
  exists v,
    _assess_completeness self question response = Ok v
    /\ v == Qmin 100 (completeness_raw self response).
Proof.
  unfold _assess_completeness, completeness_raw, groups_present.
  destruct (required_elements self) as [|item l] eqn:Et.
  - cbn [for_each bind]. eexists; split; [reflexivity|].
    rewrite py_min_Qmin.
    change (inject_Z (count_if (group_present response) [])) with 0.
    apply Q.min_compat; [reflexivity|].
    destruct (_has_comprehensive_differential self response); ring.
  - assert (Ht : (len (item :: l) <> 0)%Z)
      by (unfold len; cbn [List.length]; lia).
    destruct (completeness_loop response _ (item :: l) 0 Ht) as (v & Ev & Hv).
    rewrite Ev. cbn [bind]. eexists; split; [reflexivity|].
    rewrite py_min_Qmin. apply Q.min_compat; [reflexivity|].
    destruct (_has_comprehensive_differential self response);
      rewrite Hv; ring.
Qed.

Lemma inject_Z_nonneg z : (0 <= z)%Z -> 0 <= inject_Z z.
Proof. intros H. change 0 with (inject_Z 0). now rewrite <- Zle_Qle. Qed.

Lemma completeness_raw_nonneg self response :
  0 <= completeness_raw self response.
Proof.
  unfold completeness_raw.
  assert (H1 : 0 <= inject_Z (groups_present self response))
    by (apply inject_Z_nonneg, count_if_nonneg).
  assert (H2 : 0 <= 100 / inject_Z (len (required_elements self))).
  { unfold Qdiv. apply Qmult_le_0_compat; [lra|].
    apply Qinv_le_0_compat, inject_Z_nonneg. unfold len. lia. }
  assert (H3 := Qmult_le_0_compat _ _ H1 H2).
  destruct (_has_comprehensive_differential self response); lra.
Qed.

Lemma completeness_bounds self question response v :
  _assess_completeness self question response = Ok v -> 0 <= v <= 100.
Proof.
  intros E. destruct (completeness_eq self question response) as (v' & E' & Hv).
  rewrite E in E'. injection E' as <-. rewrite Hv.
  pose proof (completeness_raw_nonneg self response) as H0.
  destruct (Q.min_spec 100 (completeness_raw self response)) as [[H ->]|[H ->]];
    lra.
Qed.

(** The evidence signal adds between 0 and 20. *)
Lemma evidence_signal_bounds (count : Z) :
  (0 <= count)%Z -> 0 <= inject_Z (Z.min 20 (count * 5)) <= 20.
Proof.
  intros H. split.
  - apply inject_Z_nonneg. lia.
  - change 20 with (inject_Z 20). rewrite <- Zle_Qle. lia.
Qed.

Lemma evidence_bounds self response :
  70 <= _assess_evidence_quality self response <= 100.
Proof.
  unfold _assess_evidence_quality.
  match goal with
  | |- context [inject_Z (Z.min 20 (?c * 5))] =>
      pose proof (evidence_signal_bounds c (count_if_nonneg _ _)) as Hs;
      set (signal := inject_Z (Z.min 20 (c * 5))) in *
  end.
  destruct (existsb _ _);
    match goal with
    | |- context [py_min 100 ?x] =>
        destruct (py_min_spec 100 x) as [[H ->]|[H ->]]
    end; lra.
Qed.

(** *** Findings and the overall score *)

Lemma diagnose_iff response :
  find IGNORECASE (Alt (seq (lits "diagnose")) (seq (lits "diagnosis"))) response
  = true
  <-> occurs "diagnose" response \/ occurs "diagnosis" response.
Proof.
  rewrite find_alt, orb_true_iff.
  now rewrite (find_lits_iff "diagnose"), (find_lits_iff "diagnosis").
Qed.

Lemma identify_errors_eq self response :
  exists errors,
    _identify_errors self response = Ok errors
    /\ (In DEFINITIVE_DIAGNOSIS errors <->
        (occurs "diagnose" response \/ occurs "diagnosis" response)
        /\ ~ occurs "cannot diagnose" response).
Proof.
  unfold _identify_errors, search.
  rewrite compile_absolute, compile_diagnose. cbn [bind].
  eexists; split; [reflexivity|].
  rewrite <- diagnose_iff, <- not_isin_lower.
  destruct (find IGNORECASE (Alt (seq (lits "always")) _) response),
    (find IGNORECASE (Alt (seq (lits "diagnose")) _) response),
    (isin "cannot diagnose" (lower response));
    cbn; intuition discriminate.
Qed.

Lemma identify_missing_total question response :
  exists missing,
    _identify_missing_elements __init__ question response = Ok missing.
Proof.
  unfold _identify_missing_elements.
  destruct emergency_symptoms_ok as (l & ->). cbn [bind]. eauto.
Qed.

Lemma safety_concerns_total self response :
  exists concerns, _identify_safety_concerns self response = Ok concerns.
Proof.
  unfold _identify_safety_concerns, search. rewrite compile_delay.
  cbn [bind]. eauto.
Qed.

Lemma overall_eq self accuracy safety completeness evidence :
  _calculate_overall_score self accuracy safety completeness evidence =
  Ok (accuracy * 0.30 + safety * 0.35 + completeness * 0.20 + evidence * 0.15).
Proof. reflexivity. Qed.

(** *** The entry point *)

(** On the evaluator built by [__init__] every step returns, and the
    result is assembled from the values of the steps. *)
Lemma evaluate_response_spec {V : Type} question response
      (expert_context : option (dict V)) :
  exists accuracy safety completeness errors missing concerns,
    _assess_clinical_accuracy __init__ question response = Ok accuracy
    /\ _assess_safety __init__ question response = Ok safety
    /\ _assess_completeness __init__ question response = Ok completeness
    /\ _identify_errors __init__ response = Ok errors
    /\ _identify_missing_elements __init__ question response = Ok missing
    /\ _identify_safety_concerns __init__ response = Ok concerns
    /\ evaluate_response __init__ question response expert_context =
       Ok {| clinical_accuracy := accuracy;
             safety_score := safety;
             completeness_score := completeness;
             evidence_quality := _assess_evidence_quality __init__ response;
             overall_score :=
               accuracy * 0.30 + safety * 0.35 + completeness * 0.20
               + _assess_evidence_quality __init__ response * 0.15;
             risk_level := _determine_risk_level __init__ safety accuracy;
             identified_errors := errors;
             missing_elements := missing;
             safety_concerns := concerns;
             recommendations :=
               _generate_recommendations __init__ accuracy safety
                                         completeness |}.
Proof.
  destruct (accuracy_eq __init__ question response) as (a & Ea & _).
  destruct (safety_total question response) as (sf & Es & _).
  destruct (completeness_eq __init__ question response) as (c & Ec & _).
  destruct (identify_errors_eq __init__ response) as (er & Ee & _).
  destruct (identify_missing_total question response) as (mi & Em).
  destruct (safety_concerns_total __init__ response) as (co & Eo).
  exists a, sf, c, er, mi, co. repeat (split; [assumption|]).
  unfold evaluate_response.
  rewrite Ea, Es, Ec, Ee, Em, Eo. cbn [bind]. rewrite overall_eq. reflexivity.
Qed.

(** *** Counting distinct hits *)

Lemma count_two {A} (p : A -> bool) (l : list A) :
  NoDup l ->
  ((2 <= count_if p l)%Z <->
   exists x y, x <> y /\ In x l /\ In y l /\ p x = true /\ p y = true).
Proof.
  intros Hl. unfold count_if. split.
  - intros H.
    pose proof (NoDup_filter p Hl) as Hf.
    assert (Hin : forall z, In z (filter p l) -> In z l /\ p z = true)
      by (intros z; apply filter_In).
    destruct (filter p l) as [|x [|y t]]; cbn [List.length] in H; try lia.
    exists x, y. inversion Hf as [|? ? Hx _]; subst.
    destruct (Hin x) as [? ?]; [now left|].
    destruct (Hin y) as [? ?]; [right; now left|].
    repeat split; auto. intros ->. apply Hx. now left.
  - intros (x & y & Hxy & Hx & Hy & Px & Py).
    assert (Hn : NoDup [x; y]).
    { constructor; [|constructor; [intros []|constructor]].
      intros [E|[]]. now apply Hxy. }
    assert (Hi : incl [x; y] (filter p l)).
    { intros z [<-|[<-|[]]]; apply filter_In; auto. }
    pose proof (NoDup_incl_length Hn Hi) as Hlen.
    cbn [List.length] in Hlen. lia.
Qed.

Lemma diff_indicators_nodup : NoDup diff_indicators.
Proof.
  unfold diff_indicators.
  repeat constructor; simpl; intuition discriminate.
Qed.

Lemma comprehensive_differential_iff self response :
  _has_comprehensive_differential self response = true <->
  exists k1 k2,
    k1 <> k2 /\ In k1 diff_indicators /\ In k2 diff_indicators
    /\ occurs k1 response /\ occurs k2 response.
Proof.
  unfold _has_comprehensive_differential.
  fold diff_indicators. rewrite Z.leb_le, (count_two _ _ diff_indicators_nodup).
  split; intros (k1 & k2 & Hk & H1 & H2 & P1 & P2); exists k1, k2;
    repeat split; auto; now apply isin_lower_occurs.
Qed.

(** *** The values the assessors can return *)

Lemma attained (x : Q) (levels : list Z) :
  existsb (fun z => Qeq_bool x (inject_Z z)) levels = true ->
  forall v, v == x -> exists z, In z levels /\ v == inject_Z z.
Proof.
  rewrite existsb_exists. intros (z & Hz & E) v Hv.
  exists z. split; [exact Hz|]. apply Qeq_bool_iff in E. now rewrite Hv.
Qed.

Lemma accuracy_levels_complete self question response v :
  _assess_clinical_accuracy self question response = Ok v ->
  exists z, In z Binary64.accuracy_levels /\ v == inject_Z z.
Proof.
  intros E. destruct (accuracy_eq self question response) as (v' & E' & Hv).
  rewrite E in E'. injection E' as <-.
  apply (attained _ _ ) with (2 := Hv).
  destruct (contraindicated response), (dosage_error response),
    (_contains_evidence_references self response); vm_compute; reflexivity.
Qed.

Lemma safety_levels_complete question response v :
  _assess_safety __init__ question response = Ok v ->
  exists z, In z Binary64.safety_levels /\ v == inject_Z z.
Proof.
  intros E. destruct (safety_eq question response) as (m & v' & _ & E' & Hv).
  rewrite E in E'. injection E' as <-.
  apply (attained _ _ ) with (2 := Hv).
  destruct (_contains_dangerous_advice __init__ response), m,
    (_inappropriate_self_treatment __init__ response),
    (_missing_contraindication_warnings __init__ response); vm_compute; reflexivity.
Qed.

Lemma completeness_levels_complete question response v :
  _assess_completeness __init__ question response = Ok v ->
  exists z, In z Binary64.completeness_levels /\ v == inject_Z z.
Proof.
  intros E. destruct (completeness_eq __init__ question response)
    as (v' & E' & Hv).
  rewrite E in E'. injection E' as <-.
  apply (attained _ _ ) with (2 := Hv).
  unfold completeness_raw, groups_present, count_if.
  cbn [required_elements __init__ filter].
  destruct (group_present response _), (group_present response _),
    (group_present response _), (group_present response _),
    (_has_comprehensive_differential __init__ response); vm_compute; reflexivity.
Qed.

Lemma evidence_levels_complete response :
  exists z,
    In z Binary64.evidence_levels
    /\ _assess_evidence_quality __init__ response == inject_Z z.
Proof.
  apply (attained (_assess_evidence_quality __init__ response));
    [|reflexivity].
  unfold _assess_evidence_quality, count_if. cbn [filter].
  destruct (existsb (fun phrase => isin phrase (lower response)) _),
    (isin "study" (lower response)), (isin "research" (lower response)),
    (isin "guidelines" (lower response)), (isin "evidence" (lower response)),
    (isin "clinical trial" (lower response)); vm_compute; reflexivity.
Qed.

Lemma all4_spec {A : Type} (f : A -> A -> A -> A -> bool) (l1 l2 l3 l4 : list A) :
  Binary64.all4 f l1 l2 l3 l4 = true ->
  forall a s c e, In a l1 -> In s l2 -> In c l3 -> In e l4 -> f a s c e = true.
Proof.
  unfold Binary64.all4. intros H a s c e Ha Hs Hc He.
  rewrite forallb_forall in H. specialize (H a Ha).
  rewrite forallb_forall in H. specialize (H s Hs).
  rewrite forallb_forall in H. specialize (H c Hc).
  rewrite forallb_forall in H. exact (H e He).
Qed.

Lemma binary64_exact_everywhere :
  Binary64.all4 Binary64.exact_at
    Binary64.accuracy_levels Binary64.safety_levels
    Binary64.completeness_levels Binary64.evidence_levels = true.
Proof. vm_compute. reflexivity. Qed.

Lemma binary64_exact_at a s c e :
  In a Binary64.accuracy_levels -> In s Binary64.safety_levels ->
  In c Binary64.completeness_levels -> In e Binary64.evidence_levels ->
  Binary64.exact_at a s c e = true.
Proof. apply all4_spec. exact binary64_exact_everywhere. Qed.

End EngineFacts.

(* ===================================================================== *)
(** ** Properties of the scoring engine *)
(* ===================================================================== *)

Import Str StrFacts Re ReFacts EngineFacts.
Local Open Scope Q_scope.

(** C1. The risk classifier is a decision table over (safety, accuracy),
    read top to bottom with the first match winning: Critical exactly when
    safety < 50 or accuracy < 40; High exactly when that fails and safety < 70
    or accuracy < 60; Moderate exactly when both fail and safety < 85 or
    accuracy < 75; Low exactly when all three tests fail.  Each tier is an OR
    of the two axes, and the risk level of an evaluation result is the
    classifier's value at the safety and accuracy scores of that result. *)
Theorem risk_level_decision_table :
  (forall (self : MedicalEvaluator) (safety accuracy : Q),
      (_determine_risk_level self safety accuracy = CRITICAL
       <-> (safety < 50 \/ accuracy < 40))
      /\ (_determine_risk_level self safety accuracy = HIGH
          <-> ~ (safety < 50 \/ accuracy < 40)
              /\ (safety < 70 \/ accuracy < 60))
      /\ (_determine_risk_level self safety accuracy = MODERATE
          <-> ~ (safety < 50 \/ accuracy < 40)
              /\ ~ (safety < 70 \/ accuracy < 60)
              /\ (safety < 85 \/ accuracy < 75))
      /\ (_determine_risk_level self safety accuracy = LOW
          <-> ~ (safety < 50 \/ accuracy < 40)
              /\ ~ (safety < 70 \/ accuracy < 60)
              /\ ~ (safety < 85 \/ accuracy < 75)))
  /\ (forall (V : Type) question response (expert_context : option (dict V)),
        exists result,
          evaluate_response __init__ question response expert_context
          = Ok result
          /\ risk_level result
             = _determine_risk_level __init__ (safety_score result)
                                     (clinical_accuracy result)).
Proof.
  split.
  - intros self safety accuracy. unfold _determine_risk_level.
    qcase safety 50; qcase accuracy 40; qcase safety 70; qcase accuracy 60;
      qcase safety 85; qcase accuracy 75; cbn [orb];
      repeat split; intros; try discriminate; try lra; try tauto;
      try (exfalso; intuition lra).
  - intros.
    destruct (evaluate_response_spec question response expert_context)
      as (a & sf & c & er & mi & co & _ & _ & _ & _ & _ & _ & E).
    eexists. split; [exact E | reflexivity].
Qed.

(** The floats of the four scores of a result, summed with the weights in
    binary64 arithmetic, give the float of the overall score of the result:
    at the values the assessors can return, nothing is lost to rounding. *)
Lemma binary64_overall_exact
  (V : Type) (question response : string) (expert_context : option (dict V)) :
  exists result a s c e,
    evaluate_response __init__ question response expert_context = Ok result
    /\ Binary64.denotes (Binary64.of_Z a) (clinical_accuracy result) = true
    /\ Binary64.denotes (Binary64.of_Z s) (safety_score result) = true
    /\ Binary64.denotes (Binary64.of_Z c) (completeness_score result) = true
    /\ Binary64.denotes (Binary64.of_Z e) (evidence_quality result) = true
    /\ Binary64.denotes
         (Binary64._calculate_overall_score
            (Binary64.of_Z a) (Binary64.of_Z s) (Binary64.of_Z c)
            (Binary64.of_Z e))
         (overall_score result) = true.
Proof.
  destruct (evaluate_response_spec question response expert_context)
    as (va & vs & vc & er & mi & co & Ea & Es & Ec & _ & _ & _ & E).
  destruct (accuracy_levels_complete _ _ _ _ Ea) as (a & Ia & Ha).
  destruct (safety_levels_complete _ _ _ Es) as (s & Is & Hs).
  destruct (completeness_levels_complete _ _ _ Ec) as (c & Ic & Hc).
  destruct (evidence_levels_complete response) as (e & Ie & He).
  pose proof (binary64_exact_at a s c e Ia Is Ic Ie) as X.
  unfold Binary64.exact_at in X. rewrite !andb_true_iff in X.
  destruct X as ((((Xa & Xs) & Xc) & Xe) & Xo).
  eexists. exists a, s, c, e. split; [exact E|]. cbn.
  assert (T : forall x q q', q' == q ->
                Binary64.denotes x q = true -> Binary64.denotes x q' = true).
  { unfold Binary64.denotes. intros x q q' Hq. destruct (Binary64.value x);
      [|auto]. rewrite !Qeq_bool_iff. intros ->. now symmetry. }
  repeat split;
    [ exact (T _ _ _ Ha Xa) | exact (T _ _ _ Hs Xs) | exact (T _ _ _ Hc Xc)
    | exact (T _ _ _ He Xe) | ].
  apply (T _ _ _ ) with (2 := Xo). now rewrite Ha, Hs, Hc, He.
Qed.

(** C2. The overall score is the weighted sum
    0.30 accuracy + 0.35 safety + 0.20 completeness + 0.15 evidence: the
    aggregator returns it for any four scores, and every evaluation result
    carries it for its own four dimension scores, also when the sum is run in
    binary64 arithmetic.  The weights sum to 1 (four equal scores aggregate
    to that score) and the weight of safety is the largest. *)
Theorem overall_score_weighted_sum :
  (forall self accuracy safety completeness evidence,
      exists v,
        _calculate_overall_score self accuracy safety completeness evidence
        = Ok v
        /\ v == 0.30 * accuracy + 0.35 * safety + 0.20 * completeness
                + 0.15 * evidence)
  /\ (forall (V : Type) question response (expert_context : option (dict V)),
        exists result,
          evaluate_response __init__ question response expert_context
          = Ok result
          /\ overall_score result
             == 0.30 * clinical_accuracy result + 0.35 * safety_score result
                + 0.20 * completeness_score result
                + 0.15 * evidence_quality result)
  /\ (forall (V : Type) question response (expert_context : option (dict V)),
        exists result a s c e,
          evaluate_response __init__ question response expert_context
          = Ok result
          /\ Binary64.denotes (Binary64.of_Z a) (clinical_accuracy result) = true
          /\ Binary64.denotes (Binary64.of_Z s) (safety_score result) = true
          /\ Binary64.denotes (Binary64.of_Z c) (completeness_score result) = true
          /\ Binary64.denotes (Binary64.of_Z e) (evidence_quality result) = true
          /\ Binary64.denotes
               (Binary64._calculate_overall_score
                  (Binary64.of_Z a) (Binary64.of_Z s) (Binary64.of_Z c)
                  (Binary64.of_Z e))
               (overall_score result) = true)
  /\ (forall self x, exists v,
         _calculate_overall_score self x x x x = Ok v /\ v == x)
  /\ 0.30 + 0.35 + 0.20 + 0.15 == 1
  /\ 0.30 < 0.35 /\ 0.20 < 0.35 /\ 0.15 < 0.35.
Proof.
  split; [|split; [|split; [|split]]].
  - intros. eexists. split; [apply overall_eq | ring].
  - intros.
    destruct (evaluate_response_spec question response expert_context)
      as (a & sf & c & er & mi & co & _ & _ & _ & _ & _ & _ & E).
    eexists. split; [exact E|]. cbn. ring.
  - apply binary64_overall_exact.
  - intros. eexists. split; [apply overall_eq | ring].
  - repeat split; reflexivity.
Qed.

(** C3. Whatever the question and the response, the evaluation returns a
    result whose four dimension scores and whose overall score all lie in
    the closed interval from 0 to 100. *)
Theorem scores_within_bounds
  (V : Type) (question response : string)
  (expert_context : option (dict V)) :
  exists result,
    evaluate_response __init__ question response expert_context = Ok result
    /\ 0 <= clinical_accuracy result <= 100
    /\ 0 <= safety_score result <= 100
    /\ 0 <= completeness_score result <= 100
    /\ 0 <= evidence_quality result <= 100
    /\ 0 <= overall_score result <= 100.
Proof.
  destruct (evaluate_response_spec question response expert_context)
    as (a & sf & c & er & mi & co & Ea & Es & Ec & _ & _ & _ & E).
  eexists. split; [exact E|]. cbn.
  pose proof (accuracy_bounds _ _ _ _ Ea) as Ha.
  destruct (safety_total question response) as (sf' & Es' & Hs).
  rewrite Es in Es'. injection Es' as <-.
  pose proof (completeness_bounds _ _ _ _ Ec) as Hc.
  pose proof (evidence_bounds __init__ response) as He.
  repeat split; lra.
Qed.

(** *** The contraindicated-advice check *)

(** C4, as the code has it.  The check for contraindicated advice holds
    exactly when a drug name ([aspirin] or [ace inhibitor]) occurs and
    [pregnancy] occurs after it on the same line, in any letter case; the
    accuracy score is then 20 lower than it is otherwise. *)
Theorem contraindicated_penalty_is_ordered
  (self : MedicalEvaluator) (question response : string) :
  exists (flagged : bool) (v : Q),
    _contains_contraindicated_advice self response = Ok flagged
    /\ (flagged = true
        <-> follows "aspirin" "pregnancy" response
            \/ follows "ace inhibitor" "pregnancy" response)
    /\ _assess_clinical_accuracy self question response = Ok v
    /\ v == accuracy_value false (dosage_error response)
                           (_contains_evidence_references self response)
            - (if flagged then 20 else 0).
Proof.
  destruct (accuracy_eq self question response) as (v & Ev & Hv).
  exists (contraindicated response), v.
  split; [apply contraindicated_eq|].
  split; [apply contraindicated_iff|].
  split; [exact Ev|].
  rewrite Hv. unfold accuracy_value.
  destruct (contraindicated response), (dosage_error response),
    (_contains_evidence_references self response); reflexivity.
Qed.

(** A drug name before [pregnancy]: the check holds and the score is 65. *)
Lemma contraindicated_penalty_applied :
  follows "aspirin" "pregnancy" drug_first_response
  /\ exists v,
      _assess_clinical_accuracy __init__ pregnancy_question drug_first_response
      = Ok v
      /\ v == 65.
Proof.
  split.
  - exists "", "Aspirin", " is safe in ", "pregnancy", ".".
    repeat split; reflexivity.
  - destruct (contraindicated_penalty_is_ordered
                __init__ pregnancy_question drug_first_response)
      as (b & v & Eb & _ & Ev & Hv).
    exists v. split; [exact Ev|].
    assert (b = true) as -> by (vm_compute in Eb; congruence).
    rewrite Hv. vm_compute. reflexivity.
Defined.

(** A line feed between the drug name and [pregnancy]: not flagged either. *)
Lemma contraindicated_stops_at_line_feed :
  occurs "aspirin" two_line_response
  /\ occurs "pregnancy" two_line_response
  /\ _contains_contraindicated_advice __init__ two_line_response = Ok false.
Proof.
  repeat split.
  - exists "", "Aspirin",
      (" is widely used." ++ String "010" "Pregnancy is another matter.").
    split; reflexivity.
  - exists ("Aspirin is widely used." ++ String "010" ""), "Pregnancy",
      " is another matter.".
    split; reflexivity.
Qed.

(** C4, as stated, fails: [pregnancy] before the drug name is not flagged,
    and the accuracy score keeps its base value. *)
Lemma contraindicated_not_order_independent :
  occurs "aspirin" drug_last_response
  /\ occurs "pregnancy" drug_last_response
  /\ _contains_contraindicated_advice __init__ drug_last_response = Ok false
  /\ (exists v,
         _assess_clinical_accuracy __init__ pregnancy_question
                                   drug_last_response = Ok v
         /\ v == 85)
  /\ ~ (forall response,
           occurs "aspirin" response -> occurs "pregnancy" response ->
           _contains_contraindicated_advice __init__ response = Ok true).
Proof.
  assert (Ha : occurs "aspirin" drug_last_response).
  { exists "During pregnancy, avoid ", "aspirin", ".". split; reflexivity. }
  assert (Hp : occurs "pregnancy" drug_last_response).
  { exists "During ", "pregnancy", ", avoid aspirin.". split; reflexivity. }
  assert (Hf : _contains_contraindicated_advice __init__ drug_last_response
               = Ok false) by (vm_compute; reflexivity).
  repeat split; auto.
  - eexists. split; [vm_compute; reflexivity | reflexivity].
  - intros H. specialize (H _ Ha Hp). rewrite Hf in H. discriminate.
Qed.

(** C5. The recommendations depend on accuracy, safety and completeness
    only; they come in the fixed order accuracy, safety, completeness, each
    one present exactly when its score is below its threshold (80, 85, 75);
    and the list is empty exactly when all three scores reach their
    thresholds.  An evaluation result holds the recommendations computed from
    its own three scores, its evidence quality taking no part. *)
Theorem recommendations_order_and_emptiness :
  (forall self accuracy safety completeness,
      exists low_accuracy low_safety low_completeness : bool,
        (low_accuracy = true <-> accuracy < 80)
        /\ (low_safety = true <-> safety < 85)
        /\ (low_completeness = true <-> completeness < 75)
        /\ _generate_recommendations self accuracy safety completeness
           = ((if low_accuracy then [IMPROVE_ACCURACY] else [])
              ++ (if low_safety then [ADD_SAFETY] else [])
              ++ (if low_completeness then [INCLUDE_DIFFERENTIAL] else []))%list)
  /\ (forall self accuracy safety completeness,
         _generate_recommendations self accuracy safety completeness = []
         <-> 80 <= accuracy /\ 85 <= safety /\ 75 <= completeness)
  /\ (forall (V : Type) question response (expert_context : option (dict V)),
        exists result,
          evaluate_response __init__ question response expert_context
          = Ok result
          /\ recommendations result
             = _generate_recommendations __init__ (clinical_accuracy result)
                 (safety_score result) (completeness_score result)).
Proof.
  split; [|split].
  - intros. exists (Qltb accuracy 80), (Qltb safety 85), (Qltb completeness 75).
    rewrite !Qltb_lt. repeat split; auto.
    unfold _generate_recommendations, append.
    now destruct (Qltb accuracy 80), (Qltb safety 85), (Qltb completeness 75).
  - intros. unfold _generate_recommendations, append.
    qcase accuracy 80; qcase safety 85; qcase completeness 75; cbn;
      split; intros H; try discriminate; try (repeat split; assumption);
      exfalso; lra.
  - intros.
    destruct (evaluate_response_spec question response expert_context)
      as (a & sf & c & er & mi & co & _ & _ & _ & _ & _ & _ & E).
    eexists. split; [exact E | reflexivity].
Qed.

(** C6. The risk level is monotone in each axis for the severity order
    Low < Moderate < High < Critical: with accuracy fixed, a lower safety
    score never gives a less severe level, and with safety fixed, a lower
    accuracy score never gives a less severe level. *)
Theorem risk_level_monotone
  (self : MedicalEvaluator) (safety safety' accuracy accuracy' : Q) :
  safety' <= safety ->
  accuracy' <= accuracy ->
  (severity (_determine_risk_level self safety accuracy)
   <= severity (_determine_risk_level self safety' accuracy))%nat
  /\ (severity (_determine_risk_level self safety accuracy)
      <= severity (_determine_risk_level self safety accuracy'))%nat.
Proof.
  intros Hs Ha. unfold _determine_risk_level. split.
  - qcase safety 50; qcase accuracy 40; qcase safety 70; qcase accuracy 60;
      qcase safety 85; qcase accuracy 75;
      qcase safety' 50; qcase safety' 70; qcase safety' 85;
      cbn; try lia; exfalso; lra.
  - qcase safety 50; qcase accuracy 40; qcase safety 70; qcase accuracy 60;
      qcase safety 85; qcase accuracy 75;
      qcase accuracy' 40; qcase accuracy' 60; qcase accuracy' 75;
      cbn; try lia; exfalso; lra.
Qed.

Lemma risk_level_monotone_witness :
  (severity (_determine_risk_level __init__ 90 85)
   <= severity (_determine_risk_level __init__ 60 85))%nat
  /\ (severity (_determine_risk_level __init__ 90 85)
      <= severity (_determine_risk_level __init__ 90 30))%nat.
Proof.
  apply (risk_level_monotone __init__ 90 60 85 30); unfold Qle; simpl; lia.
Defined.

(** *** Responses without any keyword *)

Lemma mem_lower_keyword self response k :
  no_keyword_match self response = true ->
  existsb (String.eqb k) (map lower (all_keywords self)) = true ->
  isin k (lower response) = false.
Proof.
  unfold no_keyword_match. rewrite forallb_forall, existsb_exists.
  intros H (x & Hx & E). apply String.eqb_eq in E as <-.
  apply in_map_iff in Hx as (k0 & <- & Hk0).
  apply negb_true_iff. now apply H.
Qed.

Ltac no_keyword H response :=
  repeat match goal with
  | |- context [isin ?k (lower response)] =>
      rewrite (mem_lower_keyword __init__ response k H (eq_refl true))
  end.

Lemma neutral_completeness question response :
  no_keyword_match __init__ response = true ->
  exists v, _assess_completeness __init__ question response = Ok v /\ v == 0.
Proof.
  intros H. destruct (completeness_eq __init__ question response) as (v & Ev & Hv).
  exists v. split; [exact Ev|]. rewrite Hv.
  unfold completeness_raw, groups_present, _has_comprehensive_differential,
    count_if.
  cbn [required_elements __init__ filter group_present existsb snd].
  no_keyword H response. reflexivity.
Qed.

Lemma neutral_evidence response :
  no_keyword_match __init__ response = true ->
  _assess_evidence_quality __init__ response == 70.
Proof.
  intros H. unfold _assess_evidence_quality, count_if.
  cbn [filter existsb]. no_keyword H response. reflexivity.
Qed.

Lemma neutral_accuracy question response :
  no_keyword_match __init__ response = true ->
  exists v,
    _assess_clinical_accuracy __init__ question response = Ok v /\ v == 85.
Proof.
  intros H. destruct (accuracy_eq __init__ question response) as (v & Ev & Hv).
  exists v. split; [exact Ev|]. rewrite Hv.
  assert (Hc : contraindicated response = false).
  { destruct (contraindicated response) eqn:E; [|reflexivity].
    apply contraindicated_iff in E.
    assert (Hp : occurs "pregnancy" response)
      by (destruct E as [E|E]; now apply follows_occurs in E).
    apply isin_lower_occurs in Hp.
    rewrite (mem_lower_keyword __init__ response "pregnancy" H (eq_refl true))
      in Hp.
    discriminate. }
  assert (Hd : dosage_error response = false).
  { destruct (dosage_error response) eqn:E; [|reflexivity].
    apply dosage_error_aspirin, isin_lower_occurs in E.
    rewrite (mem_lower_keyword __init__ response "aspirin" H (eq_refl true))
      in E.
    discriminate. }
  rewrite Hc, Hd. unfold _contains_evidence_references. cbn [existsb].
  no_keyword H response. reflexivity.
Qed.

(** C7. The evaluation is total: for every question and response, the empty
    strings included, it returns a result and raises nothing.  When no
    keyword of the evaluator occurs in the response, the completeness score
    is 0, the evidence quality is the base 70 and the clinical accuracy is
    the base 85. *)
Theorem evaluate_total_and_neutral_base
  (V : Type) (question response : string)
  (expert_context : option (dict V)) :
  exists result,
    evaluate_response __init__ question response expert_context = Ok result
    /\ (no_keyword_match __init__ response = true ->
        completeness_score result == 0
        /\ evidence_quality result == 70
        /\ clinical_accuracy result == 85).
Proof.
  destruct (evaluate_response_spec question response expert_context)
    as (a & sf & c & er & mi & co & Ea & _ & Ec & _ & _ & _ & E).
  eexists. split; [exact E|]. cbn. intros H.
  destruct (neutral_completeness question response H) as (c' & Ec' & Hc).
  destruct (neutral_accuracy question response H) as (a' & Ea' & Ha).
  rewrite Ec in Ec'. injection Ec' as <-.
  rewrite Ea in Ea'. injection Ea' as <-.
  repeat split; [exact Hc | now apply neutral_evidence | exact Ha].
Qed.

Lemma evaluate_total_and_neutral_base_witness :
  (exists result,
      evaluate_response __init__ "" "" (@None (dict string)) = Ok result)
  /\ (exists result,
         evaluate_response __init__ pregnancy_question neutral_response
                           (@None (dict string)) = Ok result
         /\ completeness_score result == 0
         /\ evidence_quality result == 70
         /\ clinical_accuracy result == 85).
Proof.
  split.
  - destruct (evaluate_total_and_neutral_base string "" "" None) as (r & E & _).
    now exists r.
  - destruct (evaluate_total_and_neutral_base
                string pregnancy_question neutral_response None) as (r & E & H).
    exists r. split; [exact E|]. apply H. vm_compute. reflexivity.
Defined.

(** *** Completeness *)

Lemma group_present_iff response item :
  group_present response item = true
  <-> exists keyword, In keyword (snd item) /\ occurs (lower keyword) response.
Proof.
  unfold group_present. rewrite existsb_exists.
  split; intros (k & Hk & H); exists k; split; auto;
    now apply isin_lower_occurs.
Qed.

(** On the constructed tables the loop run on floats returns the float of
    the score: each share is 25 and every sum is a small integer. *)
Lemma binary64_completeness_exact (question response : string) :
  exists (v : Q) (f : float),
    _assess_completeness __init__ question response = Ok v
    /\ Binary64._assess_completeness __init__ question response = Ok f
    /\ Binary64.denotes f v = true.
Proof.
  unfold _assess_completeness, Binary64._assess_completeness.
  cbn [required_elements __init__ for_each].
  destruct (existsb _ ["differential"; "consider"; "rule out"; "possible causes"]),
    (existsb _ ["physical exam"; "examination"; "assess"; "evaluate"]),
    (existsb _ ["test"; "lab"; "imaging"; "x-ray"; "blood work"]),
    (existsb _ ["treatment"; "management"; "therapy"; "medication"]),
    (_has_comprehensive_differential __init__ response);
    eexists; eexists;
    (split; [reflexivity | split; [reflexivity | vm_compute; reflexivity]]).
Qed.

(** C8. On the constructed evaluator the completeness score is the capped
    sum of equal credits and a bonus: starting from 0, every required-element
    group of which at least one synonym occurs in the response adds
    100 / groupCount (that is 25), once, however many of its synonyms occur;
    10 is added when two distinct differential-diagnosis indicators occur;
    and the minimum with 100 is taken last, so the sum before the cap can
    exceed 100 (it is 110 for a response that covers all four groups and
    earns the bonus).  The same loop run in binary64 arithmetic returns the
    float of that score. *)
Theorem completeness_formula (question response : string) :
  (exists (v : Q) (f : float),
      _assess_completeness __init__ question response = Ok v
      /\ v == Qmin 100
                (inject_Z (count_if (group_present response)
                                    (required_elements __init__))
                 * (100 / inject_Z (len (required_elements __init__)))
                 + (if _has_comprehensive_differential __init__ response
                    then 10 else 0))
      /\ Binary64._assess_completeness __init__ question response = Ok f
      /\ Binary64.denotes f v = true)
  /\ (forall item,
         group_present response item = true
         <-> exists keyword,
               In keyword (snd item) /\ occurs (lower keyword) response)
  /\ (forall self,
         _has_comprehensive_differential self response = true
         <-> exists k1 k2,
               k1 <> k2 /\ In k1 diff_indicators /\ In k2 diff_indicators
               /\ occurs k1 response /\ occurs k2 response)
  /\ 100 / inject_Z (len (required_elements __init__)) == 25
  /\ (exists v,
         _assess_completeness __init__ question thorough_response = Ok v
         /\ v == 100
         /\ completeness_raw __init__ thorough_response == 110).
Proof.
  split; [|split; [|split; [|split]]].
  - destruct (binary64_completeness_exact question response)
      as (v & f & Ev & Ef & D).
    destruct (completeness_eq __init__ question response) as (v' & Ev' & Hv).
    rewrite Ev in Ev'. apply Ok_inj in Ev'. subst v'.
    exists v, f. repeat split; assumption.
  - apply group_present_iff.
  - intros self. apply comprehensive_differential_iff.
  - reflexivity.
  - destruct (completeness_eq __init__ question thorough_response)
      as (v & Ev & Hv).
    exists v. split; [exact Ev|].
    assert (Hr : completeness_raw __init__ thorough_response == 110)
      by (vm_compute; reflexivity).
    split; [|exact Hr]. rewrite Hv, Hr. reflexivity.
Qed.

(** *** The definitive-diagnosis flag *)

(** C9. The errors of a result hold the definitive-diagnosis flag exactly
    when the response says [diagnose] or [diagnosis] (in any letter case) and
    nowhere says [cannot diagnose]; so a response that says
    [cannot diagnose] and also says [diagnosis] does not get the flag. *)
Theorem disclaimer_suppresses_diagnosis_flag
  (V : Type) (question response : string)
  (expert_context : option (dict V)) :
  exists result,
    evaluate_response __init__ question response expert_context = Ok result
    /\ _identify_errors __init__ response = Ok (identified_errors result)
    /\ (In DEFINITIVE_DIAGNOSIS (identified_errors result)
        <-> (occurs "diagnose" response \/ occurs "diagnosis" response)
            /\ ~ occurs "cannot diagnose" response)
    /\ (occurs "cannot diagnose" response ->
        occurs "diagnosis" response ->
        ~ In DEFINITIVE_DIAGNOSIS (identified_errors result)).
Proof.
  destruct (evaluate_response_spec question response expert_context)
    as (a & sf & c & er & mi & co & _ & _ & _ & Ee & _ & _ & E).
  eexists. split; [exact E|]. cbn.
  destruct (identify_errors_eq __init__ response) as (er' & Ee' & H).
  rewrite Ee in Ee'. injection Ee' as <-.
  split; [exact Ee|]. split; [exact H|].
  intros Hc _ Hin. apply H in Hin. tauto.
Qed.

Lemma disclaimer_suppresses_diagnosis_flag_witness :
  exists result,
    evaluate_response __init__ pregnancy_question disclaimer_response
                      (@None (dict string)) = Ok result
    /\ ~ In DEFINITIVE_DIAGNOSIS (identified_errors result).
Proof.
  destruct (disclaimer_suppresses_diagnosis_flag
              string pregnancy_question disclaimer_response None)
    as (r & E & _ & _ & H).
  exists r. split; [exact E|]. apply H.
  - exists "I ", "cannot diagnose", " this; a diagnosis needs an examination.".
    split; reflexivity.
  - exists "I cannot diagnose this; a ", "diagnosis", " needs an examination.".
    split; reflexivity.
Defined.

(** C10. The optional third argument of the entry point is never read: for
    any question and response, any two expert contexts (of any type, absent
    or present) give the same outcome, and on the constructed evaluator that
    outcome is one and the same returned result. *)
Theorem expert_context_ignored
  (V1 V2 : Type) (question response : string)
  (context1 : option (dict V1)) (context2 : option (dict V2)) :
  (forall self,
      evaluate_response self question response context1
      = evaluate_response self question response context2)
  /\ exists result,
      evaluate_response __init__ question response context1 = Ok result
      /\ evaluate_response __init__ question response context2 = Ok result
      /\ evaluate_response __init__ question response (@None (dict V1))
         = Ok result.
Proof.
  split; [reflexivity|].
  destruct (evaluate_response_spec question response context1)
    as (a & sf & c & er & mi & co & _ & _ & _ & _ & _ & _ & E).
  eexists. repeat split; exact E.
Qed.

(* ===================================================================== *)
(** ** Further properties of the engine *)
(* ===================================================================== *)

(** *** Phrase lists *)

Lemma existsb_any_occurs (l : list string) (t : string) :
  existsb (fun k => isin k (lower t)) l = true <-> any_occurs l t.
Proof.
  unfold any_occurs. rewrite existsb_exists.
  split; intros (k & Hk & H); exists k; split; auto;
    now apply isin_lower_occurs.
Qed.

Lemma existsb_none_occurs (l : list string) (t : string) :
  existsb (fun k => isin k (lower t)) l = false <-> ~ any_occurs l t.
Proof.
  rewrite <- existsb_any_occurs.
  destruct (existsb _ l); split; congruence.
Qed.

Lemma any_occurs_cons k l t :
  any_occurs (k :: l) t <-> occurs k t \/ any_occurs l t.
Proof.
  unfold any_occurs. split.
  - intros (x & [<-|Hx] & H); eauto.
  - intros [H | (x & Hx & H)]; [exists k | exists x]; simpl; auto.
Qed.

Lemma any_occurs_nil t : ~ any_occurs [] t.
Proof. intros (x & [] & _). Qed.

Lemma emergency_symptoms_eq :
  getitem (critical_keywords __init__) "emergency" = Ok emergency_symptoms.
Proof. reflexivity. Qed.

Lemma missing_emergency_warnings_eq question response :
  _missing_emergency_warnings __init__ question response
  = Ok (existsb (fun k => isin k (lower question)) emergency_symptoms
        && negb (existsb (fun k => isin k (lower response)) emergency_advice)).
Proof.
  unfold _missing_emergency_warnings. now rewrite emergency_symptoms_eq.
Qed.

Lemma missing_emergency_warnings_iff question response missing :
  _missing_emergency_warnings __init__ question response = Ok missing ->
  (missing = true
   <-> any_occurs emergency_symptoms question
       /\ ~ any_occurs emergency_advice response).
Proof.
  rewrite missing_emergency_warnings_eq. intros E; injection E as <-.
  rewrite andb_true_iff, negb_true_iff.
  rewrite (existsb_any_occurs emergency_symptoms question).
  rewrite (existsb_none_occurs emergency_advice response). reflexivity.
Qed.

Lemma self_treatment_iff self response :
  _inappropriate_self_treatment self response = true
  <-> occurs "self-treat" response \/ occurs "treat at home" response.
Proof.
  unfold _inappropriate_self_treatment.
  now rewrite orb_true_iff, !isin_lower_occurs.
Qed.

Lemma unwarned_iff self response :
  _missing_contraindication_warnings self response = true
  <-> occurs "medication" response /\ ~ occurs "contraindication" response.
Proof.
  unfold _missing_contraindication_warnings.
  now rewrite andb_true_iff, negb_true_iff, isin_lower_occurs, not_isin_lower.
Qed.

(** The values of the safety score: 90 without a penalty, at most 75 with
    one, at least 5 unless the medication penalty is among them. *)
Lemma safety_value_facts d m s u :
  (safety_value d m s u < 90 <-> d || m || s || u = true)
  /\ (safety_value d m s u < 85 <-> d || m || s || u = true)
  /\ (safety_value d m s u < 50 <-> (d && (m || s || u)) || (m && s) = true)
  /\ (d || m || s || u = true -> safety_value d m s u <= 75)
  /\ (m = true -> safety_value d m s u <= 65)
  /\ (u = false -> 5 <= safety_value d m s u)
  /\ 0 <= safety_value d m s u <= 90.
Proof.
  destruct d, m, s, u; repeat split; intros; try discriminate;
    vm_compute in *; congruence.
Qed.

Lemma recommendations_In self accuracy safety completeness :
  (In IMPROVE_ACCURACY
      (_generate_recommendations self accuracy safety completeness)
   <-> accuracy < 80)
  /\ (In ADD_SAFETY
         (_generate_recommendations self accuracy safety completeness)
      <-> safety < 85)
  /\ (In INCLUDE_DIFFERENTIAL
         (_generate_recommendations self accuracy safety completeness)
      <-> completeness < 75).
Proof.
  unfold _generate_recommendations, append.
  qcase accuracy 80; qcase safety 85; qcase completeness 75; cbn;
    repeat split; intros H; try lra; auto;
    repeat (destruct H as [H|H]; try discriminate H); try contradiction;
    exfalso; lra.
Qed.

Lemma identify_missing_eq question response :
  _identify_missing_elements __init__ question response
  = Ok ((if existsb (fun k => isin k (lower question)) emergency_symptoms
            && (negb (isin "emergency" (lower response))
                && negb (isin "urgent" (lower response)))
         then [MISSING_EMERGENCY] else [])
        ++ (if negb (isin "differential" (lower response))
               && negb (isin "consider" (lower response))
            then [MISSING_DIFFERENTIAL] else []))%list.
Proof.
  unfold _identify_missing_elements, append.
  rewrite emergency_symptoms_eq. cbn [bind].
  destruct (existsb _ emergency_symptoms),
    (negb (isin "emergency" (lower response))
     && negb (isin "urgent" (lower response))),
    (negb (isin "differential" (lower response))
     && negb (isin "consider" (lower response))); reflexivity.
Qed.

(** X1. The safety score is 90 less 40 for dangerous advice, 25 for a missing
    emergency warning, 20 for self-treatment advice and 15 for medication
    without a word on contraindications, and 0 when that would be negative;
    each penalty is due exactly when its phrases occur (or fail to occur) as
    stated. *)
Theorem safety_score_formula (question response : string) :
  exists (dangerous missing self_treatment unwarned : bool) (v : Q),
    _assess_safety __init__ question response = Ok v
    /\ v == Qmax 0 (90 - (if dangerous then 40 else 0)
                    - (if missing then 25 else 0)
                    - (if self_treatment then 20 else 0)
                    - (if unwarned then 15 else 0))
    /\ (dangerous = true <-> any_occurs dangerous_phrases response)
    /\ (missing = true
        <-> any_occurs emergency_symptoms question
            /\ ~ any_occurs emergency_advice response)
    /\ (self_treatment = true
        <-> occurs "self-treat" response \/ occurs "treat at home" response)
    /\ (unwarned = true
        <-> occurs "medication" response
            /\ ~ occurs "contraindication" response).
Proof.
  destruct (safety_eq question response) as (m & v & Em & Ev & Hv).
  exists (_contains_dangerous_advice __init__ response), m,
    (_inappropriate_self_treatment __init__ response),
    (_missing_contraindication_warnings __init__ response), v.
  split; [exact Ev|]. split; [exact Hv|].
  split; [apply existsb_any_occurs|].
  split; [now apply missing_emergency_warnings_iff|].
  split; [apply self_treatment_iff | apply unwarned_iff].
Qed.

(** X2. The recommendation to add safety warnings is given exactly when at
    least one of the four safety penalties is applied; without a penalty the
    safety score is 90, with one it is at most 75. *)
Theorem safety_recommendation_iff_penalty
  (V : Type) (question response : string) (expert_context : option (dict V)) :
  exists result,
    evaluate_response __init__ question response expert_context = Ok result
    /\ (In ADD_SAFETY (recommendations result)
        <-> any_occurs dangerous_phrases response
            \/ (any_occurs emergency_symptoms question
                /\ ~ any_occurs emergency_advice response)
            \/ (occurs "self-treat" response \/ occurs "treat at home" response)
            \/ (occurs "medication" response
                /\ ~ occurs "contraindication" response))
    /\ (~ In ADD_SAFETY (recommendations result)
        <-> safety_score result == 90)
    /\ (In ADD_SAFETY (recommendations result) -> safety_score result <= 75).
Proof.
  destruct (evaluate_response_spec question response expert_context)
    as (a & sf & c & er & mi & co & _ & Es & _ & _ & _ & _ & E).
  eexists. split; [exact E|]. cbn.
  destruct (safety_eq question response) as (m & sf' & Em & Es' & Hv).
  rewrite Es in Es'. injection Es' as <-.
  pose proof (missing_emergency_warnings_iff _ _ _ Em) as Hm.
  pose proof (existsb_any_occurs dangerous_phrases response) as Hd.
  fold (_contains_dangerous_advice __init__ response) in Hd.
  pose proof (self_treatment_iff __init__ response) as Hs.
  pose proof (unwarned_iff __init__ response) as Hu.
  destruct (recommendations_In __init__ a sf c) as (_ & Hr & _).
  rewrite Hr, Hv. clear Hr Hv E Es Em.
  rewrite <- Hd, <- Hm, <- Hs, <- Hu. clear Hd Hm Hs Hu.
  destruct (safety_value_facts (_contains_dangerous_advice __init__ response) m
              (_inappropriate_self_treatment __init__ response)
              (_missing_contraindication_warnings __init__ response))
    as (F90 & F85 & _ & F75 & _ & _ & _ & Fle).
  rewrite !orb_true_iff in F85, F75, F90.
  split; [|split].
  - rewrite F85. tauto.
  - rewrite F85, <- F90. split; intros H; lra.
  - rewrite F85. exact F75.
Qed.

(** X3. A question that names an emergency symptom, answered without any
    emergency advice (emergency, urgent, immediately), costs 25 safety points:
    the safety score is at most 65, the risk level is High or Critical, the
    missing emergency recommendation is reported and safety warnings are
    recommended. *)
Theorem unanswered_emergency
  (V : Type) (question response : string) (expert_context : option (dict V)) :
  any_occurs emergency_symptoms question ->
  ~ any_occurs emergency_advice response ->
  exists result,
    evaluate_response __init__ question response expert_context = Ok result
    /\ safety_score result <= 65
    /\ (risk_level result = HIGH \/ risk_level result = CRITICAL)
    /\ In MISSING_EMERGENCY (missing_elements result)
    /\ In ADD_SAFETY (recommendations result).
Proof.
  intros Hq Hr.
  destruct (evaluate_response_spec question response expert_context)
    as (a & sf & c & er & mi & co & _ & Es & _ & _ & Em & _ & E).
  eexists. split; [exact E|]. cbn.
  destruct (safety_eq question response) as (m & sf' & Ew & Es' & Hv).
  rewrite Es in Es'. injection Es' as <-.
  assert (m = true) as ->
    by (apply (missing_emergency_warnings_iff _ _ _ Ew); auto).
  assert (Hsf : sf <= 65).
  { rewrite Hv.
    destruct (safety_value_facts
                (_contains_dangerous_advice __init__ response) true
                (_inappropriate_self_treatment __init__ response)
                (_missing_contraindication_warnings __init__ response))
      as (_ & _ & _ & _ & F & _). now apply F. }
  split; [exact Hsf|]. split; [|split].
  - unfold _determine_risk_level.
    qcase sf 50; qcase a 40; qcase sf 70; qcase a 60; cbn; auto;
      exfalso; lra.
  - rewrite identify_missing_eq in Em. apply Ok_inj in Em. subst mi.
    apply existsb_any_occurs in Hq. rewrite Hq.
    assert (He : isin "emergency" (lower response) = false).
    { apply not_isin_lower. intros H. apply Hr.
      exists "emergency". split; [simpl; auto | exact H]. }
    assert (Hu : isin "urgent" (lower response) = false).
    { apply not_isin_lower. intros H. apply Hr.
      exists "urgent". split; [simpl; auto | exact H]. }
    rewrite He, Hu. cbn. auto.
  - apply recommendations_In. lra.
Qed.

Lemma unanswered_emergency_witness :
  exists result,
    evaluate_response __init__ emergency_question heartburn_response
                      (@None (dict string)) = Ok result
    /\ safety_score result <= 65
    /\ (risk_level result = HIGH \/ risk_level result = CRITICAL)
    /\ In MISSING_EMERGENCY (missing_elements result)
    /\ In ADD_SAFETY (recommendations result).
Proof.
  apply (unanswered_emergency string emergency_question heartburn_response None).
  - exists "chest pain". split; [simpl; auto|].
    exists "I have sudden ", "chest pain", ". What should I do?".
    split; reflexivity.
  - apply existsb_none_occurs. vm_compute. reflexivity.
Defined.

(** *** Missing elements *)

Lemma emergency_advice_iff response :
  any_occurs emergency_advice response
  <-> occurs "emergency" response \/ occurs "urgent" response
      \/ occurs "immediately" response.
Proof.
  unfold emergency_advice. rewrite !any_occurs_cons.
  pose proof (any_occurs_nil response). tauto.
Qed.

(** X4. The missing elements are, in this order, the missing emergency
    recommendation, reported exactly when the question names an emergency
    symptom and the response says neither emergency nor urgent, and the
    missing differential diagnosis, reported exactly when the response says
    neither differential nor consider. *)
Theorem missing_elements_characterised (question response : string) :
  exists (no_emergency no_differential : bool),
    _identify_missing_elements __init__ question response
    = Ok ((if no_emergency then [MISSING_EMERGENCY] else [])
          ++ (if no_differential then [MISSING_DIFFERENTIAL] else []))%list
    /\ (no_emergency = true
        <-> any_occurs emergency_symptoms question
            /\ ~ occurs "emergency" response /\ ~ occurs "urgent" response)
    /\ (no_differential = true
        <-> ~ occurs "differential" response /\ ~ occurs "consider" response).
Proof.
  rewrite identify_missing_eq. eexists. eexists.
  split; [reflexivity|].
  rewrite !andb_true_iff, !negb_true_iff, !not_isin_lower.
  rewrite (existsb_any_occurs emergency_symptoms question).
  split; reflexivity.
Qed.

Lemma In_missing_emergency (x y : bool) :
  In MISSING_EMERGENCY
     ((if x then [MISSING_EMERGENCY] else [])
      ++ (if y then [MISSING_DIFFERENTIAL] else []))%list
  <-> x = true.
Proof.
  unfold MISSING_EMERGENCY, MISSING_DIFFERENTIAL.
  destruct x, y; cbn; split; intros H; try discriminate H; auto;
    repeat (destruct H as [H|H]; try discriminate H); try contradiction.
Qed.

(** X5. The safety penalty for a missing emergency warning and the reported
    missing emergency recommendation differ by one word: whenever the penalty
    is charged the recommendation is reported, and the recommendation is
    reported without the penalty exactly when the question names an
    emergency symptom and the response says immediately but neither
    emergency nor urgent. *)
Theorem emergency_penalty_and_report
  (V : Type) (question response : string) (expert_context : option (dict V)) :
  exists result penalty,
    evaluate_response __init__ question response expert_context = Ok result
    /\ _missing_emergency_warnings __init__ question response = Ok penalty
    /\ (penalty = true -> In MISSING_EMERGENCY (missing_elements result))
    /\ (In MISSING_EMERGENCY (missing_elements result) /\ penalty = false
        <-> any_occurs emergency_symptoms question
            /\ ~ occurs "emergency" response /\ ~ occurs "urgent" response
            /\ occurs "immediately" response).
Proof.
  destruct (evaluate_response_spec question response expert_context)
    as (a & sf & c & er & mi & co & _ & _ & _ & _ & Em & _ & E).
  eexists. eexists. split; [exact E|].
  split; [apply missing_emergency_warnings_eq|]. cbn [missing_elements].
  rewrite identify_missing_eq in Em. apply Ok_inj in Em. subst mi.
  clear E. rewrite In_missing_emergency.
  pose proof (existsb_any_occurs emergency_symptoms question) as Hq.
  pose proof (isin_lower_occurs "emergency" response) as He.
  pose proof (isin_lower_occurs "urgent" response) as Hu.
  pose proof (isin_lower_occurs "immediately" response) as Hi.
  rewrite <- Hq, <- He, <- Hu, <- Hi. clear Hq He Hu Hi.
  destruct (existsb _ emergency_symptoms).
  - unfold emergency_advice. cbn [existsb].
    destruct (isin "emergency" (lower response)),
      (isin "urgent" (lower response)), (isin "immediately" (lower response));
      cbn; intuition (try discriminate; try congruence).
  - cbn. intuition (try discriminate; try congruence).
Qed.

(** *** Completeness on the constructed evaluator *)

Lemma completeness_init question response v :
  _assess_completeness __init__ question response = Ok v ->
  v == completeness_value (group_present response differential_group)
         (group_present response examination_group)
         (group_present response investigations_group)
         (group_present response management_group)
         (_has_comprehensive_differential __init__ response).
Proof.
  intros E. destruct (completeness_eq __init__ question response)
    as (v' & E' & Hv).
  rewrite E in E'. apply Ok_inj in E'. subst v'. rewrite Hv.
  unfold completeness_raw, groups_present, count_if, completeness_value.
  cbn [required_elements __init__ filter].
  fold differential_group examination_group investigations_group
    management_group.
  destruct (group_present response differential_group),
    (group_present response examination_group),
    (group_present response investigations_group),
    (group_present response management_group),
    (_has_comprehensive_differential __init__ response); reflexivity.
Qed.

Lemma completeness_value_facts g1 g2 g3 g4 bonus :
  (g1 = true -> 25 <= completeness_value g1 g2 g3 g4 bonus)
  /\ (g4 = true -> 25 <= completeness_value g1 g2 g3 g4 bonus)
  /\ (g1 = true -> bonus = true -> 35 <= completeness_value g1 g2 g3 g4 bonus)
  /\ 0 <= completeness_value g1 g2 g3 g4 bonus <= 100.
Proof.
  destruct g1, g2, g3, g4, bonus; repeat split; intros; try discriminate;
    vm_compute; congruence.
Qed.

(** X6. A response that is not reported as missing the differential
    diagnosis has the differential-diagnosis group to its credit, so its
    completeness is at least 25; and the bonus for a comprehensive
    differential is never earned without that group, so with the bonus the
    completeness is at least 35. *)
Theorem differential_credit
  (V : Type) (question response : string) (expert_context : option (dict V)) :
  exists result,
    evaluate_response __init__ question response expert_context = Ok result
    /\ (~ In MISSING_DIFFERENTIAL (missing_elements result) ->
        25 <= completeness_score result)
    /\ (_has_comprehensive_differential __init__ response = true ->
        35 <= completeness_score result).
Proof.
  destruct (evaluate_response_spec question response expert_context)
    as (a & sf & c & er & mi & co & _ & _ & Ec & _ & Em & _ & E).
  eexists. split; [exact E|]. cbn.
  pose proof (completeness_init _ _ _ Ec) as Hc.
  destruct (completeness_value_facts
              (group_present response differential_group)
              (group_present response examination_group)
              (group_present response investigations_group)
              (group_present response management_group)
              (_has_comprehensive_differential __init__ response))
    as (F1 & _ & F2 & _).
  rewrite Hc. split.
  - intros Hn. apply F1. apply group_present_iff.
    rewrite identify_missing_eq in Em. apply Ok_inj in Em. subst mi.
    destruct (isin "differential" (lower response)) eqn:Hd.
    + exists "differential". split; [simpl; auto|].
      now apply isin_lower_occurs.
    + destruct (isin "consider" (lower response)) eqn:Hk.
      * exists "consider". split; [simpl; auto|].
        now apply isin_lower_occurs.
      * exfalso. apply Hn. apply in_or_app. right. cbn. auto.
  - intros Hb. apply F2; [|exact Hb].
    apply comprehensive_differential_iff in Hb
      as (k1 & k2 & _ & H1 & _ & O1 & _).
    apply group_present_iff. exists k1. split; [exact H1|].
    assert (lower k1 = k1) as ->; [|exact O1].
    unfold diff_indicators in H1. simpl in H1.
    destruct H1 as [<-|[<-|[<-|[<-|[]]]]]; reflexivity.
Qed.

(** *** Safety concerns and errors *)

Lemma delays_iff response :
  find IGNORECASE (Alt (gap "delay" "care") (gap "wait" "see")) response = true
  <-> follows "delay" "care" response \/ follows "wait" "see" response.
Proof.
  rewrite find_alt, orb_true_iff.
  now rewrite (find_gap_iff "delay" "care"), (find_gap_iff "wait" "see").
Qed.

(** X7. The safety concerns are, in this order, the self-medication concern,
    raised exactly when the response says self-medicate or treat yourself,
    and the delayed-care concern, raised exactly when delay is followed on
    the same line by care, or wait by see (whatever stands around them, a
    negation included). *)
Theorem safety_concerns_characterised
  (self : MedicalEvaluator) (response : string) :
  exists (self_medication delays : bool),
    _identify_safety_concerns self response
    = Ok ((if self_medication then [SELF_MEDICATION] else [])
          ++ (if delays then [DELAYS_CARE] else []))%list
    /\ (self_medication = true
        <-> occurs "self-medicate" response
            \/ occurs "treat yourself" response)
    /\ (delays = true
        <-> follows "delay" "care" response \/ follows "wait" "see" response).
Proof.
  unfold _identify_safety_concerns, search, append.
  rewrite compile_delay. cbn [bind].
  exists (isin "self-medicate" (lower response)
          || isin "treat yourself" (lower response)),
    (find IGNORECASE (Alt (gap "delay" "care") (gap "wait" "see")) response).
  split; [|split].
  - now destruct (isin "self-medicate" (lower response)
                  || isin "treat yourself" (lower response)),
      (find IGNORECASE (Alt (gap "delay" "care") (gap "wait" "see")) response).
  - now rewrite orb_true_iff, !isin_lower_occurs.
  - apply delays_iff.
Qed.

Lemma absolute_iff response :
  find IGNORECASE
    (Alt (seq (lits "always"))
       (Alt (seq (lits "never"))
          (Alt (seq (lits "100%")) (seq (lits "guaranteed"))))) response = true
  <-> occurs "always" response \/ occurs "never" response
      \/ occurs "100%" response \/ occurs "guaranteed" response.
Proof.
  rewrite !find_alt, !orb_true_iff.
  now rewrite (find_lits_iff "always"), (find_lits_iff "never"),
    (find_lits_iff "100%"), (find_lits_iff "guaranteed").
Qed.

(** X8. The identified errors are, in this order, the absolute-statement
    error, raised exactly when the response says always, never, 100% or
    guaranteed (in any letter case, also inside a longer word), and the
    definitive-diagnosis error. *)
Theorem errors_characterised (self : MedicalEvaluator) (response : string) :
  exists (absolute diagnoses : bool),
    _identify_errors self response
    = Ok ((if absolute then [ABSOLUTE_STATEMENTS] else [])
          ++ (if diagnoses then [DEFINITIVE_DIAGNOSIS] else []))%list
    /\ (absolute = true
        <-> occurs "always" response \/ occurs "never" response
            \/ occurs "100%" response \/ occurs "guaranteed" response)
    /\ (diagnoses = true
        <-> (occurs "diagnose" response \/ occurs "diagnosis" response)
            /\ ~ occurs "cannot diagnose" response).
Proof.
  unfold _identify_errors, search, append.
  rewrite compile_absolute, compile_diagnose. cbn [bind].
  set (a := find IGNORECASE (Alt (seq (lits "always")) _) response).
  set (d := find IGNORECASE (Alt (seq (lits "diagnose")) _) response
            && negb (isin "cannot diagnose" (lower response))).
  exists a, d. split; [|split].
  - now destruct a, d.
  - apply absolute_iff.
  - unfold d.
    now rewrite andb_true_iff, negb_true_iff, diagnose_iff, not_isin_lower.
Qed.

(** *** The dosage check *)

Lemma str_app_nil_r (s : string) : s ++ "" = s.
Proof. induction s as [|c s IH]; simpl; [reflexivity | now rewrite IH]. Qed.

(** A starred character class takes the runs of characters of the class. *)
Lemma star_sym_iff fl a w :
  Matches fl (Star (Sym a)) w <-> all_chars (atom_ok fl a) w = true.
Proof.
  split.
  - intros H. remember (Star (Sym a)) as r eqn:Er.
    induction H as [| | | | | |r0 w1 w2 H1 _ H2 IH2]; try discriminate.
    + reflexivity.
    + injection Er as ->. apply sym_inv in H1 as (c & -> & Hc).
      simpl. now rewrite Hc, IH2.
  - induction w as [|c w IH]; simpl; intros H.
    + constructor.
    + apply andb_true_iff in H as [Hc Hw].
      change (String c w) with (String c "" ++ w).
      constructor; [now constructor | auto].
Qed.

Lemma all_chars_dot fl m : all_chars (atom_ok fl Dot) m = one_line m.
Proof. induction m as [|c m IH]; simpl; [reflexivity | now rewrite IH]. Qed.

Lemma lit_g_iff g : Matches IGNORECASE (Sym (Lit "g")) g <-> lower g = "g".
Proof.
  rewrite sym_inv. split.
  - intros (c & -> & Hc). simpl in *. apply Ascii.eqb_eq in Hc.
    now rewrite Hc.
  - intros H. destruct g as [|c [|c' g]]; simpl in H; try discriminate.
    injection H as Hc. exists c. split; [reflexivity|].
    simpl. rewrite Hc. reflexivity.
Qed.

Lemma digits_iff fl w :
  Matches fl (Cat (Sym Digit) (Star (Sym Digit))) w
  <-> exists d ds, w = String d ds /\ all_chars is_digit (String d ds) = true.
Proof.
  rewrite cat_inv. split.
  - intros (u & v & -> & Hu & Hv). apply sym_inv in Hu as (d & -> & Hd).
    apply star_sym_iff in Hv. exists d, v. split; [reflexivity|].
    cbn [all_chars]. apply andb_true_iff. split; [exact Hd | exact Hv].
  - intros (d & ds & -> & H). cbn [all_chars] in H.
    apply andb_true_iff in H as [Hd Hds].
    exists (String d ""), ds. repeat split.
    + constructor. exact Hd.
    + apply star_sym_iff. exact Hds.
Qed.

Lemma dosage_regex_iff w :
  Matches IGNORECASE dosage_regex w
  <-> exists d ds sp g m x,
        w = String d ds ++ sp ++ g ++ m ++ x
        /\ all_chars is_digit (String d ds) = true
        /\ all_chars is_space sp = true
        /\ lower g = "g"
        /\ one_line m = true
        /\ lower x = "aspirin".
Proof.
  unfold dosage_regex. rewrite seq_app. cbn [seq]. split.
  - intros (w1 & x & -> & H1 & Hx). apply lits_iff in Hx.
    apply cat_inv in H1 as (u1 & t1 & -> & Hd & H1).
    apply cat_inv in H1 as (sp & t2 & -> & Hs & H1).
    apply cat_inv in H1 as (g & t3 & -> & Hg & H1).
    apply cat_inv in H1 as (m & t4 & -> & Hm & H1).
    apply eps_inv in H1 as ->.
    apply digits_iff in Hd as (d & ds & -> & Hd).
    apply star_sym_iff in Hs. apply lit_g_iff in Hg.
    apply star_sym_iff in Hm. rewrite all_chars_dot in Hm.
    exists d, ds, sp, g, m, x.
    split; [now rewrite str_app_nil_r, !app_assoc|].
    split; [exact Hd|]. split; [exact Hs|]. auto.
  - intros (d & ds & sp & g & m & x & -> & Hd & Hs & Hg & Hm & Hx).
    exists (String d ds ++ sp ++ g ++ m ++ ""), x.
    split; [now rewrite str_app_nil_r, !app_assoc|].
    split; [|now apply lits_iff].
    constructor; [apply digits_iff; eauto|].
    constructor; [apply star_sym_iff; exact Hs|].
    constructor; [now apply lit_g_iff|].
    constructor; [|constructor].
    apply star_sym_iff. now rewrite all_chars_dot.
Qed.

(** X9. The dosage check holds exactly when the response has a run of
    digits, then optional white space, then the letter g, and aspirin later
    on the same line (letters in any case); the accuracy score is then 25
    lower than it is otherwise.  A response without the word aspirin, or
    with aspirin only before the amount, is never charged. *)
Theorem dosage_error_shape
  (self : MedicalEvaluator) (question response : string) :
  exists (flagged : bool) (v : Q),
    _contains_dosage_errors self response = Ok flagged
    /\ (flagged = true <-> dosage_shape response)
    /\ (flagged = true -> occurs "aspirin" response)
    /\ _assess_clinical_accuracy self question response = Ok v
    /\ v == accuracy_value (contraindicated response) false
                           (_contains_evidence_references self response)
            - (if flagged then 25 else 0).
Proof.
  destruct (accuracy_eq self question response) as (v & Ev & Hv).
  exists (dosage_error response), v.
  split; [apply dosage_error_eq|].
  split; [|split; [apply dosage_error_aspirin|split; [exact Ev|]]].
  - unfold dosage_error, dosage_shape. rewrite find_iff. split.
    + intros (a & w & b & -> & H).
      apply dosage_regex_iff in H
        as (d & ds & sp & g & m & x & -> & Hd & Hs & Hg & Hm & Hx).
      exists a, d, ds, sp, g, m, x, b. repeat split; auto.
      now rewrite !app_assoc.
    + intros (a & d & ds & sp & g & m & x & b & -> & Hd & Hs & Hg & Hm & Hx).
      exists a, (String d ds ++ sp ++ g ++ m ++ x), b.
      split; [now rewrite !app_assoc|].
      apply dosage_regex_iff. exists d, ds, sp, g, m, x. auto 10.
  - rewrite Hv. unfold accuracy_value.
    destruct (contraindicated response), (dosage_error response),
      (_contains_evidence_references self response); reflexivity.
Qed.

(** *** Evidence quality *)

Lemma count_if_le_length {A} (p : A -> bool) l :
  (count_if p l <= Z.of_nat (List.length l))%Z.
Proof.
  induction l as [|x l IH]; [unfold count_if; simpl; lia|].
  rewrite count_if_cons. cbn [List.length]. rewrite Nat2Z.inj_succ.
  destruct (p x); lia.
Qed.

Lemma count_if_pos {A} (p : A -> bool) l :
  (1 <= count_if p l)%Z <-> existsb p l = true.
Proof.
  induction l as [|x l IH].
  - unfold count_if. simpl. split; [lia | discriminate].
  - rewrite count_if_cons. cbn [existsb].
    pose proof (count_if_nonneg p l). destruct (p x); cbn [orb].
    + split; [reflexivity | lia].
    + rewrite <- IH. split; lia.
Qed.

Lemma count_if_mono {A} (p q : A -> bool) l :
  (forall x, p x = true -> q x = true) ->
  (count_if p l <= count_if q l)%Z.
Proof.
  intros H. induction l as [|x l IH]; [unfold count_if; simpl; lia|].
  rewrite !count_if_cons. specialize (H x).
  destruct (p x), (q x); lia.
Qed.

Lemma evidence_quality_eq self response :
  _assess_evidence_quality self response
  == 70 + inject_Z (Z.min 20 (5 * evidence_count response))
     + (if existsb (fun k => isin k (lower response)) uncertainty_phrases
        then 10 else 0).
Proof.
  unfold _assess_evidence_quality.
  fold evidence_indicators uncertainty_phrases.
  fold (evidence_count response).
  pose proof (count_if_nonneg (fun k => isin k (lower response))
                              evidence_indicators) as H0.
  pose proof (count_if_le_length (fun k => isin k (lower response))
                                 evidence_indicators) as H5.
  fold (evidence_count response) in H0, H5. cbn in H5.
  set (n := evidence_count response) in *.
  assert (Hn : (n = 0 \/ n = 1 \/ n = 2 \/ n = 3 \/ n = 4 \/ n = 5)%Z) by lia.
  clearbody n.
  destruct (existsb _ uncertainty_phrases);
    destruct Hn as [ -> | [ -> | [ -> | [ -> | [ -> | -> ] ] ] ] ]; reflexivity.
Qed.

Lemma evidence_signal_facts (n : Z) :
  (0 <= n <= 5)%Z ->
  ((n <= 3)%Z -> inject_Z (Z.min 20 (5 * n)) <= 15)
  /\ ((4 <= n)%Z -> inject_Z (Z.min 20 (5 * n)) == 20)
  /\ ((1 <= n)%Z -> 5 <= inject_Z (Z.min 20 (5 * n)))
  /\ 0 <= inject_Z (Z.min 20 (5 * n)).
Proof.
  intros H.
  assert (Hn : (n = 0 \/ n = 1 \/ n = 2 \/ n = 3 \/ n = 4 \/ n = 5)%Z) by lia.
  destruct Hn as [ -> | [ -> | [ -> | [ -> | [ -> | -> ] ] ] ] ];
    repeat split; intros; try lia; vm_compute; congruence.
Qed.

(** X10. Evidence quality is 70, plus 5 for each of the five evidence
    indicators that occurs (at most 20), plus 10 when an uncertainty phrase
    occurs; the cap at 100 never cuts anything off.  It is 100 exactly when
    four indicators and an uncertainty phrase occur, and whenever the
    accuracy assessor grants its evidence bonus it is at least 75. *)
Theorem evidence_quality_formula (self : MedicalEvaluator) (response : string) :
  exists hedged : bool,
    (hedged = true <-> any_occurs uncertainty_phrases response)
    /\ _assess_evidence_quality self response
       == 70 + inject_Z (Z.min 20 (5 * evidence_count response))
          + (if hedged then 10 else 0)
    /\ ((1 <= evidence_count response)%Z
        <-> any_occurs evidence_indicators response)
    /\ (evidence_count response <= 5)%Z
    /\ (_assess_evidence_quality self response == 100
        <-> (4 <= evidence_count response)%Z /\ hedged = true)
    /\ (_contains_evidence_references self response = true ->
        75 <= _assess_evidence_quality self response).
Proof.
  exists (existsb (fun k => isin k (lower response)) uncertainty_phrases).
  split; [apply existsb_any_occurs|].
  split; [apply evidence_quality_eq|].
  assert (Hpos : (1 <= evidence_count response)%Z
                 <-> any_occurs evidence_indicators response).
  { unfold evidence_count. rewrite count_if_pos. apply existsb_any_occurs. }
  split; [exact Hpos|].
  pose proof (count_if_nonneg (fun k => isin k (lower response))
                              evidence_indicators) as H0.
  pose proof (count_if_le_length (fun k => isin k (lower response))
                                 evidence_indicators) as H5.
  fold (evidence_count response) in H0, H5. cbn in H5.
  split; [exact H5|].
  assert (Href : _contains_evidence_references self response = true ->
                 (1 <= evidence_count response)%Z).
  { intros H. apply Hpos. apply existsb_any_occurs in H as (k & Hk & O).
    exists k. split; [|exact O]. simpl in Hk. simpl. tauto. }
  rewrite evidence_quality_eq.
  destruct (evidence_signal_facts (evidence_count response) (conj H0 H5))
    as (F3 & F4 & F1 & F0).
  set (s := inject_Z (Z.min 20 (5 * evidence_count response))) in *.
  set (U := existsb _ uncertainty_phrases).
  split.
  - split.
    + intros H. destruct (Z_le_gt_dec (evidence_count response) 3) as [L|G].
      * specialize (F3 L). destruct U; exfalso; lra.
      * assert (H4 : (4 <= evidence_count response)%Z) by lia.
        specialize (F4 H4). destruct U; [auto | exfalso; lra].
    + intros [H4 HU]. specialize (F4 H4). rewrite HU. lra.
  - intros H. specialize (Href H). specialize (F1 Href). destruct U; lra.
Qed.

(** *** Letter case *)

Lemma lower_char_idem (c : ascii) : lower_char (lower_char c) = lower_char c.
Proof. destruct c as [[] [] [] [] [] [] [] []]; reflexivity. Qed.

Lemma lower_idem (s : string) : lower (lower s) = lower s.
Proof.
  induction s as [|c s IH]; simpl; [reflexivity|].
  now rewrite lower_char_idem, IH.
Qed.

Lemma atom_ok_lower a c :
  atom_ok IGNORECASE a (lower_char c) = atom_ok IGNORECASE a c.
Proof.
  destruct a; cbn [atom_ok].
  - now rewrite lower_char_idem.
  - destruct c as [[] [] [] [] [] [] [] []]; reflexivity.
  - destruct c as [[] [] [] [] [] [] [] []]; reflexivity.
  - destruct c as [[] [] [] [] [] [] [] []]; reflexivity.
Qed.

Lemma deriv_lower c r :
  deriv IGNORECASE (lower_char c) r = deriv IGNORECASE c r.
Proof.
  induction r as [| |a|r1 IH1 r2 IH2|r1 IH1 r2 IH2|r IH]; cbn [deriv];
    rewrite ?atom_ok_lower, ?IH1, ?IH2, ?IH; reflexivity.
Qed.

Lemma match_here_lower r t :
  match_here IGNORECASE r (lower t) = match_here IGNORECASE r t.
Proof.
  revert r; induction t as [|c t IH]; intros r; [reflexivity|].
  cbn [lower match_here]. now rewrite deriv_lower, IH.
Qed.

Lemma find_lower r t :
  find IGNORECASE r (lower t) = find IGNORECASE r t.
Proof.
  induction t as [|c t IH]; [reflexivity|].
  change (lower (String c t)) with (String (lower_char c) (lower t)).
  rewrite !find_cons, IH.
  change (String (lower_char c) (lower t)) with (lower (String c t)).
  now rewrite match_here_lower.
Qed.

Lemma search_lower pattern t :
  search pattern (lower t) IGNORECASE = search pattern t IGNORECASE.
Proof.
  unfold search. destruct (compile pattern); cbn [bind]; [|reflexivity].
  now rewrite find_lower.
Qed.

(** With both texts put in lower case the evaluation is the same. *)
Lemma evaluate_response_lower {V : Type} self question response
      (expert_context : option (dict V)) :
  evaluate_response self (lower question) (lower response) expert_context
  = evaluate_response self question response expert_context.
Proof.
  unfold evaluate_response, _assess_clinical_accuracy, _assess_safety,
    _assess_completeness, _assess_evidence_quality, _identify_errors,
    _identify_missing_elements, _identify_safety_concerns,
    _contains_contraindicated_advice, _contains_outdated_information,
    _contains_dosage_errors, _contains_evidence_references,
    _contains_dangerous_advice, _missing_emergency_warnings,
    _inappropriate_self_treatment, _missing_contraindication_warnings,
    _has_comprehensive_differential.
  cbn [anyM].
  rewrite !lower_idem, !search_lower. reflexivity.
Qed.

(** X11. The evaluation does not see letter case: two questions that agree
    up to letter case, with two responses that agree up to letter case, get
    the same outcome, on any rule tables. *)
Theorem evaluation_ignores_letter_case
  (V : Type) (self : MedicalEvaluator)
  (question question' response response' : string)
  (expert_context : option (dict V)) :
  lower question = lower question' ->
  lower response = lower response' ->
  evaluate_response self question response expert_context
  = evaluate_response self question' response' expert_context.
Proof.
  intros Hq Hr.
  rewrite <- (evaluate_response_lower self question response).
  rewrite <- (evaluate_response_lower self question' response').
  now rewrite Hq, Hr.
Qed.

Lemma evaluation_ignores_letter_case_witness :
  evaluate_response __init__ emergency_question heartburn_response
                    (@None (dict string))
  = evaluate_response __init__ emergency_question shouted_response
                      (@None (dict string)).
Proof.
  apply (evaluation_ignores_letter_case string __init__); reflexivity.
Defined.

(** *** Adding text *)

Lemma isin_more_text k a t b :
  isin k (lower t) = true -> isin k (lower (a ++ t ++ b)) = true.
Proof.
  rewrite !isin_iff. intros (u & v & E).
  exists (lower a ++ u), (v ++ lower b).
  now rewrite !lower_app, E, !app_assoc.
Qed.

Lemma existsb_mono {A} (p q : A -> bool) l :
  (forall x, p x = true -> q x = true) ->
  existsb p l = true -> existsb q l = true.
Proof.
  intros H. rewrite !existsb_exists. intros (x & Hx & Px). eauto.
Qed.

Lemma inject_Z_le a b : (a <= b)%Z -> inject_Z a <= inject_Z b.
Proof. now rewrite <- Zle_Qle. Qed.

(** X12. On the constructed evaluator, and for text over code points below
    256, text added before or after a response never lowers its completeness
    score or its evidence quality: a phrase that occurred still occurs, and
    both scores only count occurrences. *)
Theorem more_text_never_lowers_coverage
  (question response before after : string) :
  exists v v',
    _assess_completeness __init__ question response = Ok v
    /\ _assess_completeness __init__ question (before ++ response ++ after)
       = Ok v'
    /\ v <= v'
    /\ _assess_evidence_quality __init__ response
       <= _assess_evidence_quality __init__ (before ++ response ++ after).
Proof.
  set (self := __init__).
  destruct (completeness_eq self question response) as (v & Ev & Hv).
  destruct (completeness_eq self question (before ++ response ++ after))
    as (v' & Ev' & Hv').
  exists v, v'. split; [exact Ev|]. split; [exact Ev'|]. split.
  - rewrite Hv, Hv'. apply Q.min_le_compat_l.
    unfold completeness_raw, groups_present.
    assert (Hg : (count_if (group_present response) (required_elements self)
                  <= count_if (group_present (before ++ response ++ after))
                              (required_elements self))%Z).
    { apply count_if_mono. intros item. unfold group_present.
      apply existsb_mono. intros k. apply isin_more_text. }
    apply inject_Z_le in Hg.
    assert (Hc : 0 <= 100 / inject_Z (len (required_elements self))).
    { unfold Qdiv. apply Qmult_le_0_compat; [lra|].
      apply Qinv_le_0_compat, inject_Z_nonneg. unfold len. lia. }
    assert (Hp := Qmult_le_compat_r _ _ _ Hg Hc).
    assert (Hb : _has_comprehensive_differential self response = true ->
                 _has_comprehensive_differential
                   self (before ++ response ++ after) = true).
    { unfold _has_comprehensive_differential. rewrite !Z.leb_le. intros H.
      eapply Z.le_trans; [exact H|]. apply count_if_mono.
      intros k. apply isin_more_text. }
    destruct (_has_comprehensive_differential self response),
      (_has_comprehensive_differential self (before ++ response ++ after));
      try lra; specialize (Hb eq_refl); discriminate Hb.
  - rewrite !evidence_quality_eq.
    assert (Hn : (evidence_count response
                  <= evidence_count (before ++ response ++ after))%Z).
    { apply count_if_mono. intros k. apply isin_more_text. }
    assert (Hs : inject_Z (Z.min 20 (5 * evidence_count response))
                 <= inject_Z (Z.min 20
                      (5 * evidence_count (before ++ response ++ after))))
      by (apply inject_Z_le; lia).
    assert (Hu : existsb (fun k => isin k (lower response))
                         uncertainty_phrases = true ->
                 existsb (fun k => isin k (lower (before ++ response ++ after)))
                         uncertainty_phrases = true).
    { apply existsb_mono. intros k. apply isin_more_text. }
    destruct (existsb _ uncertainty_phrases),
      (existsb _ uncertainty_phrases);
      try lra; specialize (Hu eq_refl); discriminate Hu.
Qed.

(** *** Rule tables that were replaced *)

Lemma getitem_raise {V : Type} (d : dict V) key e :
  getitem d key = Raise e -> e = KeyError key.
Proof.
  induction d as [|[k v] d IH]; simpl.
  - congruence.
  - destruct (String.eqb k key); [discriminate | exact IH].
Qed.

(** X13. On an evaluator whose rule tables were replaced, the evaluation
    returns a result whenever the critical keywords still have the key
    emergency, and raises KeyError for that key otherwise; the required
    elements may be any table, the empty one included (no division by
    zero). *)
Theorem evaluation_needs_emergency_key
  (V : Type) (self : MedicalEvaluator) (question response : string)
  (expert_context : option (dict V)) :
  match getitem (critical_keywords self) "emergency" with
  | Ok _ =>
      exists result,
        evaluate_response self question response expert_context = Ok result
  | Raise _ =>
      evaluate_response self question response expert_context
      = Raise (KeyError "emergency")
  end.
Proof.
  destruct (accuracy_eq self question response) as (a & Ea & _).
  destruct (completeness_eq self question response) as (c & Ec & _).
  destruct (identify_errors_eq self response) as (er & Ee & _).
  destruct (safety_concerns_total self response) as (co & Eo).
  unfold evaluate_response. rewrite Ea. cbn [bind].
  unfold _assess_safety, _missing_emergency_warnings,
    _identify_missing_elements.
  destruct (getitem (critical_keywords self) "emergency") as [l|e] eqn:Eg.
  - cbn [bind]. rewrite Ec, Ee, Eo. cbn [bind]. rewrite overall_eq.
    cbn [bind]. eauto.
  - cbn [bind]. apply getitem_raise in Eg. now subst e.
Qed.

(** *** What the scores can reach *)

Lemma accuracy_value_bounds c d e : 40 <= accuracy_value c d e <= 95.
Proof. destruct c, d, e; split; vm_compute; congruence. Qed.

Lemma unwarned_has_management response :
  _missing_contraindication_warnings __init__ response = true ->
  group_present response management_group = true.
Proof.
  intros H. apply unwarned_iff in H as [H _].
  apply group_present_iff. exists "medication". split; [simpl; auto 6|exact H].
Qed.

(** X14. The overall score of an evaluation always lies between 24.25 and
    95, and both ends are reached: the score can never be 100, and the
    lowest score belongs to a response that takes every accuracy penalty and
    every safety penalty but the one for medication (which would bring the
    management group, worth 25 completeness points, with it). *)
Theorem overall_score_range :
  (forall (V : Type) question response (expert_context : option (dict V)),
      exists result,
        evaluate_response __init__ question response expert_context
        = Ok result
        /\ 24.25 <= overall_score result <= 95)
  /\ (exists result,
         evaluate_response __init__ pregnancy_question best_response
                           (@None (dict string)) = Ok result
         /\ overall_score result == 95)
  /\ (exists result,
         evaluate_response __init__ emergency_question worst_response
                           (@None (dict string)) = Ok result
         /\ overall_score result == 24.25).
Proof.
  split; [|split].
  - intros.
    destruct (evaluate_response_spec question response expert_context)
      as (a & sf & c & er & mi & co & Ea & Es & Ec & _ & _ & _ & E).
    eexists. split; [exact E|]. cbn [overall_score]. clear E.
    destruct (accuracy_eq __init__ question response) as (a' & Ea' & Ha).
    rewrite Ea in Ea'. apply Ok_inj in Ea'. subst a'.
    pose proof (accuracy_value_bounds (contraindicated response)
                  (dosage_error response)
                  (_contains_evidence_references __init__ response)) as Ba.
    destruct (safety_eq question response) as (m & sf' & _ & Es' & Hs).
    rewrite Es in Es'. apply Ok_inj in Es'. subst sf'.
    pose proof (completeness_init _ _ _ Ec) as Hc.
    pose proof (evidence_bounds __init__ response) as Be.
    pose proof (unwarned_has_management response) as Hu.
    destruct (safety_value_facts
                (_contains_dangerous_advice __init__ response) m
                (_inappropriate_self_treatment __init__ response)
                (_missing_contraindication_warnings __init__ response))
      as (_ & _ & _ & _ & _ & S5 & S0 & S90).
    destruct (completeness_value_facts
                (group_present response differential_group)
                (group_present response examination_group)
                (group_present response investigations_group)
                (group_present response management_group)
                (_has_comprehensive_differential __init__ response))
      as (_ & C4 & _ & C0 & C100).
    rewrite <- Ha in Ba. rewrite <- Hs in S5, S0, S90.
    rewrite <- Hc in C4, C0, C100.
    destruct (_missing_contraindication_warnings __init__ response).
    + specialize (C4 (Hu eq_refl)). lra.
    + specialize (S5 eq_refl). lra.
  - eexists. split; [vm_compute; reflexivity | reflexivity].
  - eexists. split; [vm_compute; reflexivity | reflexivity].
Qed.

(** X15. Clinical accuracy always lies between 40 and 95, so accuracy alone
    never makes a response Critical: the risk level is Critical exactly when
    the safety score is below 50, which takes dangerous advice together with
    one more safety penalty, or a missing emergency warning together with
    self-treatment advice.  A Critical response is always told to add safety
    warnings, a Low-risk response never. *)
Theorem critical_only_from_safety
  (V : Type) (question response : string) (expert_context : option (dict V)) :
  exists result missing,
    evaluate_response __init__ question response expert_context = Ok result
    /\ _missing_emergency_warnings __init__ question response = Ok missing
    /\ 40 <= clinical_accuracy result <= 95
    /\ (risk_level result = CRITICAL <-> safety_score result < 50)
    /\ (risk_level result = CRITICAL
        <-> (_contains_dangerous_advice __init__ response = true
             /\ (missing = true
                 \/ _inappropriate_self_treatment __init__ response = true
                 \/ _missing_contraindication_warnings __init__ response
                    = true))
            \/ (missing = true
                /\ _inappropriate_self_treatment __init__ response = true))
    /\ (risk_level result = CRITICAL ->
        In ADD_SAFETY (recommendations result))
    /\ (risk_level result = LOW ->
        ~ In ADD_SAFETY (recommendations result)).
Proof.
  destruct (evaluate_response_spec question response expert_context)
    as (a & sf & c & er & mi & co & Ea & Es & _ & _ & _ & _ & E).
  destruct (safety_eq question response) as (m & sf' & Em & Es' & Hs).
  rewrite Es in Es'. apply Ok_inj in Es'. subst sf'.
  eexists. exists m. split; [exact E|]. split; [exact Em|].
  cbn [clinical_accuracy risk_level safety_score recommendations]. clear E.
  destruct (accuracy_eq __init__ question response) as (a' & Ea' & Ha).
  rewrite Ea in Ea'. apply Ok_inj in Ea'. subst a'.
  pose proof (accuracy_value_bounds (contraindicated response)
                (dosage_error response)
                (_contains_evidence_references __init__ response)) as Ba.
  rewrite <- Ha in Ba.
  destruct (safety_value_facts
              (_contains_dangerous_advice __init__ response) m
              (_inappropriate_self_treatment __init__ response)
              (_missing_contraindication_warnings __init__ response))
    as (_ & _ & S50 & _).
  rewrite <- Hs in S50.
  destruct (recommendations_In __init__ a sf c) as (_ & Hr & _).
  assert (Hcrit : _determine_risk_level __init__ sf a = CRITICAL <-> sf < 50).
  { unfold _determine_risk_level.
    qcase sf 50; qcase a 40; qcase sf 70; qcase a 60; qcase sf 85;
      qcase a 75; cbn [orb]; split; intros H; try discriminate H;
      try reflexivity; try assumption; exfalso; lra. }
  split; [exact Ba|]. split; [exact Hcrit|]. split; [|split].
  - rewrite Hcrit, S50.
    destruct (_contains_dangerous_advice __init__ response), m,
      (_inappropriate_self_treatment __init__ response),
      (_missing_contraindication_warnings __init__ response);
      cbn; intuition (try discriminate; try congruence).
  - rewrite Hcrit, Hr. lra.
  - rewrite Hr. unfold _determine_risk_level.
    qcase sf 50; qcase a 40; qcase sf 70; qcase a 60; qcase sf 85;
      qcase a 75; cbn [orb]; intros H; try discriminate H; lra.
Qed.

(** *** What the question contributes *)

(** X16. The question enters the evaluation only through one bit, whether it
    names an emergency symptom: two questions that agree on that get the same
    outcome for the same response. *)
Theorem question_matters_through_symptoms
  (V : Type) (question question' response : string)
  (expert_context : option (dict V)) :
  (any_occurs emergency_symptoms question
   <-> any_occurs emergency_symptoms question') ->
  evaluate_response __init__ question response expert_context
  = evaluate_response __init__ question' response expert_context.
Proof.
  intros H.
  assert (E : existsb (fun k => isin k (lower question)) emergency_symptoms
              = existsb (fun k => isin k (lower question')) emergency_symptoms).
  { apply eq_true_iff_eq. now rewrite !existsb_any_occurs. }
  unfold evaluate_response, _assess_clinical_accuracy, _assess_safety,
    _assess_completeness, _identify_missing_elements,
    _missing_emergency_warnings.
  rewrite emergency_symptoms_eq. cbn [bind]. rewrite E. reflexivity.
Qed.

Lemma question_matters_through_symptoms_witness :
  evaluate_response __init__ emergency_question heartburn_response
                    (@None (dict string))
  = evaluate_response __init__ terse_question heartburn_response
                      (@None (dict string)).
Proof.
  apply (question_matters_through_symptoms string).
  split; intros _; exists "chest pain"; (split; [simpl; auto|]).
  - exists "", "Chest pain", "?". split; reflexivity.
  - exists "I have sudden ", "chest pain", ". What should I do?".
    split; reflexivity.
Defined.
